(** * A shallow embedding of [app.py] (Scuba Diving Agent)

    The script has three pieces of logic that the development models:
    - the forecast fetch [get_meteo_data]: two HTTP calls, a pandas merge of
      the two [hourly] payloads, and the weather-code translation;
    - the marine-life summarizer [search_marine_life]: one web search, one
      generation call, all inside one [try ... except Exception];
    - the start-up blocks (secrets and the CSV spot registry) and the
      noon-row selection of the display path.

    Python exceptions are values of [pyexc]; a computation that may raise
    returns [exn A].  Streamlit effects ([st.error], [st.stop]) and the
    provider calls are recorded as [event]s. *)

From Stdlib Require Import String Ascii List ZArith NArith Bool Lia.
Import ListNotations.
Open Scope list_scope.
Open Scope string_scope.
#[local] Set Warnings "-register-all".

(** ** Python exceptions and the exception monad *)

Inductive pyexc : Type :=
| FileNotFoundError (msg : string)
| KeyError (msg : string)
| ValueError (msg : string)
| AttributeError (msg : string)
| IndexError (msg : string)
| TypeError (msg : string)
| OverflowError (msg : string)
| OtherError (msg : string).

(** [str(e)] *)
Definition exc_str (e : pyexc) : string :=
  match e with
  | FileNotFoundError m | KeyError m | ValueError m | AttributeError m
  | IndexError m | TypeError m | OverflowError m | OtherError m => m
  end.

Inductive exn (A : Type) : Type :=
| Ok (a : A)
| Raise (e : pyexc).
Arguments Ok {A} a.
Arguments Raise {A} e.

Definition exn_bind {A B} (m : exn A) (k : A -> exn B) : exn B :=
  match m with
  | Ok a => k a
  | Raise e => Raise e
  end.

Notation "x <- m ;; k" := (exn_bind m (fun x => k))
  (at level 61, m at next level, right associativity).

(** Apply a raising function to every element, raising the first error
    (a list comprehension, or pandas' element-wise conversion). *)
Fixpoint mapM {A B} (f : A -> exn B) (l : list A) : exn (list B) :=
  match l with
  | [] => Ok []
  | x :: r => y <- f x ;; ys <- mapM f r ;; Ok (y :: ys)
  end.

(** ** Strings *)

Definition nl : string := String (ascii_of_nat 10) EmptyString.

(** [sep.join(l)] *)
Fixpoint py_join (sep : string) (l : list string) : string :=
  match l with
  | [] => ""
  | [s] => s
  | s :: r => s ++ sep ++ py_join sep r
  end.

Definition digit_char (d : N) : ascii := ascii_of_N (48 + d).

Fixpoint dec_N_fuel (fuel : nat) (n : N) (acc : string) : string :=
  match fuel with
  | O => String (digit_char n) acc
  | S f =>
      if (n <? 10)%N then String (digit_char n) acc
      else dec_N_fuel f (n / 10)%N (String (digit_char (n mod 10)%N) acc)
  end.

(** [str(n)] of a non-negative integer; [N.size_nat n] bounds the number of
    decimal digits. *)
Definition dec_N (n : N) : string := dec_N_fuel (N.size_nat n) n "".

(** [str(z)] of a Python [int]. *)
Definition py_str_int (z : Z) : string :=
  if (z <? 0)%Z then "-" ++ dec_N (Z.abs_N z) else dec_N (Z.to_N z).

(** ** JSON values (the result of [requests.get(...).json()])

    Numbers are JSON integers, which [json()] decodes to Python [int]s;
    numbers written with a fraction or an exponent (Python [float]s) are
    outside this model. *)

Inductive json : Type :=
| JNull
| JBool (b : bool)
| JNum (z : Z)
| JStr (s : string)
| JArr (l : list json)
| JObj (fields : list (string * json)).

(** ** [WEATHER_CODE_MAP] *)

Definition WEATHER_CODE_MAP : list (Z * string) :=
  [(0, "快晴"); (1, "晴れ"); (2, "一部曇り"); (3, "曇り");
   (45, "霧"); (48, "着氷性の霧");
   (51, "霧雨(軽)"); (53, "霧雨(中)"); (55, "霧雨(強)");
   (61, "雨(軽)"); (63, "雨(中)"); (65, "雨(強)");
   (80, "にわか雨(軽)"); (81, "にわか雨(中)"); (82, "にわか雨(強)")]%Z.

Fixpoint assoc_Z {A} (k : Z) (m : list (Z * A)) : option A :=
  match m with
  | [] => None
  | (k', v) :: r => if (k =? k')%Z then Some v else assoc_Z k r
  end.

(** [lambda x: WEATHER_CODE_MAP.get(x, f"不明({x})")] on a Python [int]. *)
Definition weather_label (x : Z) : string :=
  match assoc_Z x WEATHER_CODE_MAP with
  | Some l => l
  | None => "不明(" ++ py_str_int x ++ ")"
  end.


(** ** Streamlit effects and provider calls *)

Inductive event : Type :=
| EvError (msg : string)                     (* st.error(msg) *)
| EvWarning (msg : string)                   (* st.warning(msg) *)
| EvStop                                     (* st.stop() *)
| EvSearch (query depth : string) (max_results : Z)  (* tavily.search *)
| EvGenerate (prompt : string).              (* model.generate_content *)

(** A calendar date ([datetime.date]). *)
Record date := mkDate { year : Z; month : Z; day : Z }.

(** ** Forecast payloads

    The payload of an Open-Meteo call after [.json()].  Its shape follows
    the API (every member of [hourly] is an array); what the code does
    with it is modelled exactly: [.get] on anything but a dict raises. *)

Inductive hourly_val : Type :=
| HObj (fields : list (string * list json))  (* a JSON object of arrays *)
| HOther (tyname : string).                  (* null, a number, a list, ...;
                                                its Python type name *)

Inductive payload : Type :=
| PObj (hourly : option hourly_val)   (* a JSON object; its [hourly] member *)
| POther (tyname : string).            (* a top-level value that is not an
                                          object; its Python type name *)

(** Python dict lookup on a decoded JSON object: the last binding wins. *)
Fixpoint lookup_last {A} (k : string) (fs : list (string * A)) : option A :=
  match fs with
  | [] => None
  | (k', v) :: r =>
      match lookup_last k r with
      | Some w => Some w
      | None => if String.eqb k k' then Some v else None
      end
  end.

(** [res.get('hourly', {})] *)
Definition payload_get_hourly (p : payload) : exn hourly_val :=
  match p with
  | PObj (Some h) => Ok h
  | PObj None => Ok (HObj [])
  | POther ty => Raise (AttributeError ("'" ++ ty ++ "' object has no attribute 'get'"))
  end.

(** [hourly.get(key, [])] *)
Definition hourly_get (h : hourly_val) (k : string) : exn (list json) :=
  match h with
  | HObj fs => match lookup_last k fs with Some l => Ok l | None => Ok [] end
  | HOther ty => Raise (AttributeError ("'" ++ ty ++ "' object has no attribute 'get'"))
  end.

(** ** Timestamps ([pd.to_datetime]) *)

Inductive timestamp : Type :=
| NaT
| Stamp (y mo d h mi : Z).

(** [ts.hour]; [NaT.hour] is NaN, equal to no integer. *)
Definition ts_hour (t : timestamp) : option Z :=
  match t with
  | NaT => None
  | Stamp _ _ _ h _ => Some h
  end.

(** ** Forecast rows *)

(** One row of the frame built by [pd.DataFrame({...})]. *)
Record pre_row := mkPreRow {
  p_time : timestamp;     (* "time" *)
  p_temp : json;          (* "気温(°C)" *)
  p_precip : json;        (* "降水量(mm)" *)
  p_wind : json;          (* "風速(km/h)" *)
  p_winddir : json;       (* "風向(°)" *)
  p_code : json;          (* "天気コード" *)
  p_wave : json;          (* "波高(m)" *)
  p_wavedir : json;       (* "波向(°)" *)
  p_period : json;        (* "波の強さ/周期(s)" *)
  p_swell : json          (* "うねり高(m)" *)
}.

(** A row after [df["天気"] = ...]. *)
Record row := mkRow { r_pre : pre_row; r_label : string (* "天気" *) }.

Definition frame := list row.

(** ** The weather-code column and [Series.map]

    [pd.DataFrame] gives each column a dtype from one pass over its
    entries: [None] and [int]s without a bool give [float64] (NaN for
    [None]); [int]s alone give [int64] or [uint64]; anything else, or a pass
    stopped early, keeps the Python values ([object]).  An [int] beyond the
    float64 range raises [OverflowError] in the pass.  [Series.map] hands
    the lambda Python values: [int]s, [float]s, or the objects. *)
Inductive pyval : Type :=
| PyInt (z : Z)
| PyFloatInt (z : Z)       (* an integral float64; [z] is its exact value *)
| PyNaN
| PyNone
| PyBool (b : bool)
| PyStr (s : string)
| PyUnhashable.            (* a list or a dict *)

(** [float(n)] of a Python [int] (CPython's [PyLong_AsDouble]): the nearest
    float64, ties to even; [None] when it rounds to 2^1024 or beyond, where
    Python raises [OverflowError]. *)
Definition f64_round_nonneg (a : Z) : Z :=
  if (a <? 2 ^ 53)%Z then a
  else
    let s := (Z.log2 a + 1 - 53)%Z in
    let q := Z.shiftr a s in
    let r := (a - Z.shiftl q s)%Z in
    let h := (2 ^ (s - 1))%Z in
    let q' := if (h <? r)%Z || ((r =? h)%Z && Z.odd q) then (q + 1)%Z else q in
    Z.shiftl q' s.

Definition f64_of_int (z : Z) : option Z :=
  let a := f64_round_nonneg (Z.abs z) in
  if (2 ^ 1024 <=? a)%Z then None
  else Some (if (z <? 0)%Z then (- a)%Z else a).

(** The non-negative integer [a] rounded to [n] significant decimal
    digits, ties to even. *)
Definition round_sig (a : Z) (n : nat) : Z :=
  let k := (Z.of_nat (String.length (py_str_int a)) - Z.of_nat n)%Z in
  if (k <=? 0)%Z then a
  else
    let p := (10 ^ k)%Z in
    let q := (a / p)%Z in
    let r := (a mod p)%Z in
    let h := (p / 2)%Z in
    let q' := if (h <? r)%Z || ((r =? h)%Z && Z.odd q) then (q + 1)%Z else q in
    (q' * p)%Z.

(** The shortest rounding of the float64 value [a] that reads back as [a]
    (17 digits always do). *)
Fixpoint shortest_from (a : Z) (n : nat) (fuel : nat) : Z :=
  match fuel with
  | O => a
  | S f =>
      let y := round_sig a n in
      if (f64_round_nonneg y =? a)%Z then y else shortest_from a (S n) f
  end.

Fixpoint strip_zeros (l : list ascii) : list ascii :=
  match l with
  | [] => []
  | c :: r =>
      match strip_zeros r with
      | [] => if Ascii.eqb c "0"%char then [] else [c]
      | r' => c :: r'
      end
  end.

(** Exponent form [d.ddde+XX] of a positive integer. *)
Definition sci (y : Z) : string :=
  let s := py_str_int y in
  let e := (Z.of_nat (String.length s) - 1)%Z in
  match strip_zeros (list_ascii_of_string s) with
  | [] => "0"
  | c :: rest =>
      String c (match rest with
                | [] => ""
                | _ => "." ++ string_of_list_ascii rest
                end) ++ "e+" ++ py_str_int e
  end.

(** [repr(x)] (= [str(x)]) of an integral float64 [x]: the shortest digits
    that read back as [x], written out with [.0] below 10^16 and in
    exponent form from 10^16 on. *)
Definition float_repr (x : Z) : string :=
  if (Z.abs x <? 10 ^ 16)%Z then py_str_int x ++ ".0"
  else (if (x <? 0)%Z then "-" else "") ++ sci (shortest_from (Z.abs x) 1 17).

Definition is_num (j : json) : bool :=
  match j with JNum _ => true | _ => false end.
Definition is_null (j : json) : bool :=
  match j with JNull => true | _ => false end.

Definition object_value (j : json) : pyval :=
  match j with
  | JNull => PyNone
  | JBool b => PyBool b
  | JNum z => PyInt z
  | JStr s => PyStr s
  | JArr _ | JObj _ => PyUnhashable
  end.

(** An entry of a float64 column: an [int] becomes its float64 (the column
    is float64 only after every [int] converted), [None] becomes NaN. *)
Definition float_value (j : json) : pyval :=
  match j with
  | JNum z => match f64_of_int z with Some x => PyFloatInt x | None => PyNaN end
  | _ => PyNaN
  end.

(** What the pass over a column has seen so far. *)
Record seen := mkSeen {
  s_null : bool; s_int : bool; s_bool : bool; s_uint : bool; s_sint : bool
}.

Definition seen0 : seen := mkSeen false false false false false.

Inductive scan_result : Type :=
| SObject               (* the pass stopped: [object] dtype *)
| SDone (s : seen).     (* the pass ended *)

(** pandas' one pass over the entries of a column
    ([lib.maybe_convert_objects]). *)
Fixpoint scan_column (col : list json) (s : seen) : exn scan_result :=
  match col with
  | [] => Ok (SDone s)
  | JNull :: r =>
      scan_column r (mkSeen true (s_int s) (s_bool s) (s_uint s) (s_sint s))
  | JBool _ :: r =>
      scan_column r (mkSeen (s_null s) (s_int s) true (s_uint s) (s_sint s))
  | JNum z :: r =>
      match f64_of_int z with
      | None => Raise (OverflowError "int too large to convert to float")
      | Some _ =>
          if s_null s
          then scan_column r (mkSeen true true (s_bool s) (s_uint s) (s_sint s))
          else
            let s' := mkSeen false true (s_bool s)
                        (s_uint s || ((2 ^ 63 - 1 <? z)%Z && (z <=? 2 ^ 64 - 1)%Z))
                        (s_sint s || ((- 2 ^ 63 <=? z)%Z && (z <? 0)%Z)) in
            if (s_uint s' && s_sint s') || (2 ^ 64 - 1 <? z)%Z || (z <? - 2 ^ 63)%Z
            then Ok SObject
            else scan_column r s'
      end
  | _ :: _ => Ok SObject
  end.

Definition series_values (col : list json) : exn (list pyval) :=
  r <- scan_column col seen0 ;;
  Ok (match r with
      | SDone s =>
          if negb (s_bool s) && s_null s && s_int s
          then map float_value col else map object_value col
      | SObject => map object_value col
      end).

(** [str(x)] in the f-string. *)
Definition py_str (v : pyval) : string :=
  match v with
  | PyInt z => py_str_int z
  | PyFloatInt z => float_repr z
  | PyNaN => "nan"
  | PyNone => "None"
  | PyBool true => "True"
  | PyBool false => "False"
  | PyStr s => s
  | PyUnhashable => "[...]"
  end.

(** [pd.DataFrame] from a dict of arrays: every array must have the length
    of the others, else [ValueError]; then each column gets its dtype (in
    the dict's order, raising [OverflowError] for an [int] beyond the
    float64 range); row [i] holds the [i]-th entry of each array. *)
Definition pd_DataFrame (time : list timestamp)
  (temp precip wind winddir code wave wavedir period swell : list json)
  : exn (list pre_row) :=
  let n := length time in
  if forallb (fun k => Nat.eqb k n)
       (map (@length json)
          [temp; precip; wind; winddir; code; wave; wavedir; period; swell])
  then
    _ <- mapM series_values
           [temp; precip; wind; winddir; code; wave; wavedir; period; swell] ;;
    Ok (map (fun i =>
          mkPreRow (nth i time NaT) (nth i temp JNull) (nth i precip JNull)
            (nth i wind JNull) (nth i winddir JNull) (nth i code JNull)
            (nth i wave JNull) (nth i wavedir JNull) (nth i period JNull)
            (nth i swell JNull)) (seq 0 n))
  else Raise (ValueError "All arrays must be of the same length").

(** [lambda x: WEATHER_CODE_MAP.get(x, f"不明({x})")]: the dict lookup hashes
    [x]; [61.0] and [True] find the integer keys [61] and [1]. *)
Definition py_label (v : pyval) : exn string :=
  let key := match v with
             | PyInt z | PyFloatInt z => Some z
             | PyBool b => Some (if b then 1 else 0)%Z
             | _ => None
             end in
  match v with
  | PyUnhashable => Raise (TypeError "unhashable type")
  | _ =>
      match option_map (fun k => assoc_Z k WEATHER_CODE_MAP) key with
      | Some (Some l) => Ok l
      | _ => Ok ("不明(" ++ py_str v ++ ")")
      end
  end.

(** ** [get_meteo_data] *)

Record request (C : Type) := mkRequest {
  rq_url : string;
  rq_latitude : C;
  rq_longitude : C;
  rq_start_date : date;
  rq_end_date : date;
  rq_hourly : list string;
  rq_timezone : string
}.
Arguments mkRequest {C}.
Arguments rq_url {C}.

Section Forecast.
(** Coordinates as the spot registry holds them. *)
Context {coord : Type}.
(** [requests.get(url, params=...).json()]: transport, HTTP and decoding
    failures raise. *)
Variable http_get_json : request coord -> exn payload.
(** [pd.to_datetime] on one entry of the time array (raises on an entry
    it cannot parse). *)
Variable to_datetime1 : json -> exn timestamp.

Definition marine_request (lat lon : coord) (d : date) : request coord :=
  mkRequest "https://marine-api.open-meteo.com/v1/marine" lat lon d d
    ["wave_height"; "wave_direction"; "wave_period";
     "swell_wave_height"; "swell_wave_direction"] "Asia/Tokyo".

Definition forecast_request (lat lon : coord) (d : date) : request coord :=
  mkRequest "https://api.open-meteo.com/v1/forecast" lat lon d d
    ["temperature_2m"; "precipitation"; "weather_code";
     "wind_speed_10m"; "wind_direction_10m"] "Asia/Tokyo".

(** The body of the [try] block. *)
Definition meteo_body (lat lon : coord) (d : date) : exn frame :=
  marine_res <- http_get_json (marine_request lat lon d) ;;
  weather_res <- http_get_json (forecast_request lat lon d) ;;
  hourly_marine <- payload_get_hourly marine_res ;;
  hourly_weather <- payload_get_hourly weather_res ;;
  times <- hourly_get hourly_marine "time" ;;
  time_col <- mapM to_datetime1 times ;;
  temp <- hourly_get hourly_weather "temperature_2m" ;;
  precip <- hourly_get hourly_weather "precipitation" ;;
  wind <- hourly_get hourly_weather "wind_speed_10m" ;;
  winddir <- hourly_get hourly_weather "wind_direction_10m" ;;
  code <- hourly_get hourly_weather "weather_code" ;;
  wave <- hourly_get hourly_marine "wave_height" ;;
  wavedir <- hourly_get hourly_marine "wave_direction" ;;
  period <- hourly_get hourly_marine "wave_period" ;;
  swell <- hourly_get hourly_marine "swell_wave_height" ;;
  rows <- pd_DataFrame time_col temp precip wind winddir code
            wave wavedir period swell ;;
  (* [df["weather_code"]]: the column's values with its dtype *)
  vals <- series_values (map p_code rows) ;;
  labels <- mapM py_label vals ;;
  Ok (map (fun '(r, l) => mkRow r l) (combine rows labels)).

(** [get_meteo_data(lat, lon, date)]: the frame, or [None] after
    [st.error]. *)
Definition get_meteo_data (lat lon : coord) (d : date)
  : list event * option frame :=
  match meteo_body lat lon d with
  | Ok df => ([], Some df)
  | Raise e => ([EvError ("気象データの取得に失敗しました: " ++ exc_str e)], None)
  end.
End Forecast.

(** ** Concrete instances for running the model *)

Definition digit_val (c : ascii) : option Z :=
  let n := nat_of_ascii c in
  if Nat.leb 48 n && Nat.leb n 57 then Some (Z.of_nat (n - 48)) else None.

Fixpoint parse_digits_acc (s : string) (acc : Z) : option Z :=
  match s with
  | EmptyString => Some acc
  | String c r =>
      match digit_val c with
      | Some d => parse_digits_acc r (acc * 10 + d)%Z
      | None => None
      end
  end.

Definition parse_digits (s : string) : option Z :=
  match s with EmptyString => None | _ => parse_digits_acc s 0 end.

(** A concrete [pd.to_datetime] for the form ["YYYY-MM-DDTHH:MM"] in which
    the API returns its time axis; [null] gives [NaT]. *)
Definition iso_to_datetime1 (j : json) : exn timestamp :=
  let bad := Raise (ValueError "Unknown datetime string format") in
  match j with
  | JNull => Ok NaT
  | JStr s =>
      if (String.length s =? 16)%nat
         && String.eqb (substring 4 1 s) "-" && String.eqb (substring 7 1 s) "-"
         && String.eqb (substring 10 1 s) "T" && String.eqb (substring 13 1 s) ":"
      then
        match parse_digits (substring 0 4 s), parse_digits (substring 5 2 s),
              parse_digits (substring 8 2 s), parse_digits (substring 11 2 s),
              parse_digits (substring 14 2 s) with
        | Some y, Some mo, Some d, Some h, Some mi => Ok (Stamp y mo d h mi)
        | _, _, _, _, _ => bad
        end
      else bad
  | _ => bad
  end.

(** An upstream that answers every marine request with [marine] and every
    forecast request with [weather]. *)
Definition fixed_http {C} (marine weather : payload) (rq : request C)
  : exn payload :=
  if String.eqb (rq_url rq) "https://marine-api.open-meteo.com/v1/marine"
  then Ok marine else Ok weather.

Definition two_digits (n : nat) : string :=
  if Nat.ltb n 10 then "0" ++ dec_N (N.of_nat n) else dec_N (N.of_nat n).

(** The 24 hourly timestamps of 2024-07-15. *)
Definition day_times : list json :=
  map (fun h => JStr ("2024-07-15T" ++ two_digits h ++ ":00")) (seq 0 24).

Definition samples (n : nat) (v : Z) : list json := repeat (JNum v) n.

Definition marine_24 : payload :=
  PObj (Some (HObj [("time", day_times); ("wave_height", samples 24 1);
                    ("wave_direction", samples 24 90);
                    ("wave_period", samples 24 7);
                    ("swell_wave_height", samples 24 1);
                    ("swell_wave_direction", samples 24 90)])).

Definition weather_fields (n : nat) : list (string * list json) :=
  [("time", firstn n day_times); ("temperature_2m", samples n 28);
   ("precipitation", samples n 0); ("weather_code", samples n 61);
   ("wind_speed_10m", samples n 12); ("wind_direction_10m", samples n 180)].

Definition weather_24 : payload := PObj (Some (HObj (weather_fields 24))).

Definition jul15 : date := mkDate 2024 7 15.

Definition row_hour (r : row) : option Z := ts_hour (p_time (r_pre r)).

(** ** The noon row of the display path *)

Definition is_noon (r : row) : bool :=
  match row_hour r with Some h => Z.eqb h 12 | None => false end.

(** [df[df['time'].dt.hour == target_hour].iloc[0]] when that selection is
    not empty, else [df.iloc[len(df)//2]] ([IndexError] out of range). *)
Definition midday_data (df : frame) : exn row :=
  match filter is_noon df with
  | r :: _ => Ok r
  | [] =>
      match nth_error df (length df / 2) with
      | Some r => Ok r
      | None => Raise (IndexError "single positional indexer is out-of-bounds")
      end
  end.

(** ** A state and exception monad for the summarizer

    The state is the list of Streamlit effects and provider calls so far. *)

Definition ST (A : Type) : Type := list event -> list event * exn A.

Definition st_ret {A} (a : A) : ST A := fun ev => (ev, Ok a).
Definition st_lift {A} (m : exn A) : ST A := fun ev => (ev, m).
Definition st_emit (e : event) : ST unit := fun ev => (ev ++ [e], Ok tt)%list.

Definition st_bind {A B} (m : ST A) (k : A -> ST B) : ST B :=
  fun ev =>
    match m ev with
    | (ev', Ok a) => k a ev'
    | (ev', Raise e) => (ev', Raise e)
    end.

(** [try: m except Exception as e: h(e)] *)
Definition st_try {A} (m : ST A) (h : pyexc -> ST A) : ST A :=
  fun ev =>
    match m ev with
    | (ev', Ok a) => (ev', Ok a)
    | (ev', Raise e) => h e ev'
    end.

Notation "x <-- m ;;; k" := (st_bind m (fun x => k))
  (at level 61, m at next level, right associativity).

(** ** Python indexing on decoded JSON *)

(** [j[k]] with a string key. *)
Definition json_getitem (j : json) (k : string) : exn json :=
  match j with
  | JObj fs =>
      match lookup_last k fs with
      | Some v => Ok v
      | None => Raise (KeyError k)
      end
  | JStr _ => Raise (TypeError "string indices must be integers")
  | JArr _ => Raise (TypeError "list indices must be integers or slices, not str")
  | _ => Raise (TypeError "object is not subscriptable")
  end.

(** [for res in j]: a list yields its items, a dict its keys, a string its
    characters; other values are not iterable. *)
Definition py_iter (j : json) : exn (list json) :=
  match j with
  | JArr l => Ok l
  | JObj fs => Ok (map (fun kv => JStr (fst kv)) fs)
  | JStr s => Ok (map (fun c => JStr (String c EmptyString)) (list_ascii_of_string s))
  | _ => Raise (TypeError "object is not iterable")
  end.

(** An item of the list given to [str.join] must be a [str]. *)
Definition as_str (j : json) : exn string :=
  match j with
  | JStr s => Ok s
  | _ => Raise (TypeError "sequence item: expected str instance")
  end.

(** ** [search_marine_life] *)

Definition indent : string := "            ".

(** The f-string [prompt]. *)
Definition build_prompt (location : string) (month : Z) (context : string)
  : string :=
  nl ++ indent ++ "以下の検索結果に基づいて、" ++ location ++ "の" ++ py_str_int month
  ++ "月にダイビングで見られる可能性が高い海洋生物をリストアップしてください。" ++ nl
  ++ indent ++ "出力は以下のフォーマットのみを含むマークダウンの箇条書きにしてください。余計な前置きは不要です。" ++ nl
  ++ nl
  ++ indent ++ "- **生物名**: 特徴や見どころ（一言で）" ++ nl
  ++ nl
  ++ indent ++ "検索結果:" ++ nl
  ++ indent ++ context ++ nl
  ++ indent.

Definition fallback_text : string := "情報の取得に失敗しました。".

Section Summarizer.
(** [tavily.search(query=..., search_depth=..., max_results=...)]. *)
Variable tavily_search : string -> string -> Z -> exn json.
(** [model.generate_content(prompt).text]. *)
Variable generate_content : string -> exn string.

Definition search_query (location : string) (d : date) : string :=
  location ++ " ダイビング 生物 見られる魚 " ++ py_str_int (month d) ++ "月 マクロ ワイド".

(** [context = "\n".join([res['content'] for res in search_result['results']])] *)
Definition build_context (search_result : json) : exn string :=
  results <- json_getitem search_result "results" ;;
  items <- py_iter results ;;
  contents <- mapM (fun res => json_getitem res "content") items ;;
  strs <- mapM as_str contents ;;
  Ok (py_join nl strs).

(** The body of the [try] block. *)
Definition summarize_body (location : string) (d : date) : ST string :=
  let query := search_query location d in
  _ <-- st_emit (EvSearch query "advanced" 3) ;;;
  search_result <-- st_lift (tavily_search query "advanced" 3) ;;;
  context <-- st_lift (build_context search_result) ;;;
  let prompt := build_prompt location (month d) context in
  _ <-- st_emit (EvGenerate prompt) ;;;
  st_lift (generate_content prompt).

Definition summarize_handler (e : pyexc) : ST string :=
  _ <-- st_emit (EvError ("生物情報の検索に失敗しました: " ++ exc_str e)) ;;;
  st_ret fallback_text.

(** [search_marine_life(location, date)], run from an empty trace. *)
Definition search_marine_life (location : string) (d : date)
  : list event * exn string :=
  st_try (summarize_body location d) summarize_handler [].
End Summarizer.

(** ** Start-up *)

(** The outcome of a top-level block of the script. *)
Inductive script (A : Type) : Type :=
| Continue (ev : list event) (a : A)   (* the script goes on *)
| Stopped (ev : list event)             (* [st.stop()] ended the run *)
| Uncaught (ev : list event) (e : pyexc).  (* an exception ended the run *)
Arguments Continue {A} ev a.
Arguments Stopped {A} ev.
Arguments Uncaught {A} ev e.

(** [st.secrets]: [None] when no [secrets.toml] exists, else its sections. *)
Definition secrets_store := option (list (string * list (string * string))).

(** [st.secrets[section][key]] *)
Definition secrets_get (s : secrets_store) (section key : string) : exn string :=
  match s with
  | None => Raise (FileNotFoundError "No secrets files found.")
  | Some secs =>
      match lookup_last section secs with
      | None => Raise (KeyError ("st.secrets has no key " ++ section))
      | Some kvs =>
          match lookup_last key kvs with
          | None => Raise (KeyError ("st.secrets has no key " ++ key))
          | Some v => Ok v
          end
      end
  end.

(** Lines 12-17: only [FileNotFoundError] is caught. *)
Definition load_secrets (s : secrets_store) : script (string * string) :=
  match (g <- secrets_get s "general" "GOOGLE_API_KEY" ;;
         t <- secrets_get s "general" "TAVILY_API_KEY" ;;
         Ok (g, t)) with
  | Ok keys => Continue [] keys
  | Raise (FileNotFoundError _) =>
      Stopped [EvError "secrets.tomlファイルが見つかりません。APIキーを設定してください。"; EvStop]
  | Raise e => Uncaught [] e
  end.

(** Lines 20-24: [genai.configure(api_key=...)] and [genai.GenerativeModel]
    only store their arguments; [TavilyClient(api_key=k)] raises
    [MissingAPIKeyError] when [k] is empty. *)
Definition tavily_client (k : string) : exn unit :=
  if String.eqb k "" then
    Raise (OtherError "No API key provided. Please provide the api_key attribute or set the TAVILY_API_KEY environment variable.")
  else Ok tt.

(** A table as [pd.read_csv] returns it: the column names and the rows. *)
Record csv := mkCsv { header : list string; rows : list (list string) }.

Fixpoint index_of (k : string) (l : list string) : option nat :=
  match l with
  | [] => None
  | x :: r =>
      if String.eqb k x then Some 0%nat
      else option_map S (index_of k r)
  end.

Fixpoint remove_at {A} (i : nat) (l : list A) : list A :=
  match l, i with
  | [], _ => []
  | _ :: r, O => r
  | x :: r, S j => x :: remove_at j r
  end.

(** [df.set_index(k)]: the index values and, per row, the other cells. *)
Definition set_index (k : string) (t : csv)
  : exn (list string * list (string * list string)) :=
  match index_of k (header t) with
  | None => Raise (KeyError ("None of ['" ++ k ++ "'] are in the columns"))
  | Some i =>
      Ok (remove_at i (header t),
          map (fun r => (nth i r "", remove_at i r)) (rows t))
  end.

Fixpoint has_dup (l : list string) : bool :=
  match l with
  | [] => false
  | x :: r => existsb (String.eqb x) r || has_dup r
  end.

(** The registry: name -> {column: value}. *)
Definition registry := list (string * list (string * string)).

(** [.to_dict("index")]: refuses a non-unique index. *)
Definition to_dict_index (ix : list string * list (string * list string))
  : exn registry :=
  let '(cols, rs) := ix in
  if has_dup (map fst rs)
  then Raise (ValueError "DataFrame index must be unique for orient='index'.")
  else Ok (map (fun r => (fst r, combine cols (snd r))) rs).

Section Spots.
(** The files the process can open. *)
Variable files : string -> option string.
(** [pd.read_csv]'s parser on the file's text (raises on malformed text). *)
Variable parse_csv : string -> exn csv.

Definition read_csv (path : string) : exn csv :=
  match files path with
  | None => Raise (FileNotFoundError ("No such file or directory: " ++ path))
  | Some text => parse_csv text
  end.

(** Lines 27-31: every exception is caught, reported and stops the run. *)
Definition load_spots : script registry :=
  match (t <- read_csv "diving_spots.csv" ;;
         ix <- set_index "name" t ;;
         to_dict_index ix) with
  | Ok reg => Continue [] reg
  | Raise e =>
      Stopped [EvError ("スポット情報の読み込みに失敗しました: " ++ exc_str e); EvStop]
  end.

(** The start-up of the script: the secrets, the clients of lines 20-24,
    then the spot registry. *)
Definition startup (s : secrets_store) : script ((string * string) * registry) :=
  match load_secrets s with
  | Continue ev (g, t) =>
      match tavily_client t with
      | Raise e => Uncaught ev e
      | Ok _ =>
          match load_spots with
          | Continue ev' reg => Continue (ev ++ ev')%list ((g, t), reg)
          | Stopped ev' => Stopped (ev ++ ev')%list
          | Uncaught ev' e => Uncaught (ev ++ ev')%list e
          end
      end
  | Stopped ev => Stopped ev
  | Uncaught ev e => Uncaught ev e
  end.
End Spots.

(** [hourly.get(k, [])] on an object of arrays. *)
Definition field_or_nil (fs : list (string * list json)) (k : string) : list json :=
  match lookup_last k fs with Some l => l | None => [] end.

(** The nine metric arrays of the merged table, in the column order of the
    [pd.DataFrame] call, read from the weather ([wf]) and marine ([mf])
    [hourly] objects. *)
Definition metric_arrays (mf wf : list (string * list json)) : list (list json) :=
  [field_or_nil wf "temperature_2m"; field_or_nil wf "precipitation";
   field_or_nil wf "wind_speed_10m"; field_or_nil wf "wind_direction_10m";
   field_or_nil wf "weather_code"; field_or_nil mf "wave_height";
   field_or_nil mf "wave_direction"; field_or_nil mf "wave_period";
   field_or_nil mf "swell_wave_height"].

(** A marine payload of one hour whose [wave_height] array is absent. *)
Definition marine_gap : payload :=
  PObj (Some (HObj [("time", firstn 1 day_times);
                    ("wave_direction", samples 1 90);
                    ("wave_period", samples 1 7);
                    ("swell_wave_height", samples 1 1)])).

Definition weather_1 : payload := PObj (Some (HObj (weather_fields 1))).

(** A marine payload with an empty time axis. *)
Definition marine_empty : payload :=
  PObj (Some (HObj [("time", []); ("wave_height", []); ("wave_direction", []);
                    ("wave_period", []); ("swell_wave_height", []);
                    ("swell_wave_direction", [])])).

Definition weather_empty : payload := PObj (Some (HObj (weather_fields 0))).

(** The values of the [name] column, in file order. *)
Definition spot_names (t : csv) : list string :=
  match index_of "name" (header t) with
  | Some i => map (fun r => nth i r "") (rows t)
  | None => []
  end.

(** [st.secrets["general"][key]] is there. *)
Definition secret_present (s : secrets_store) (key : string) : bool :=
  match s with
  | Some secs =>
      match lookup_last "general" secs with
      | Some kvs => match lookup_last key kvs with Some _ => true | None => false end
      | None => false
      end
  | None => false
  end.

Fixpoint split_on (sep : ascii) (s : string) : list string :=
  match s with
  | EmptyString => [""]
  | String c r =>
      if Ascii.eqb c sep then "" :: split_on sep r
      else match split_on sep r with
           | w :: ws => String c w :: ws
           | [] => [String c EmptyString]
           end
  end.

(** A minimal reader of comma-separated text without quoting, for running
    the model on concrete files: the first line is the header, empty lines
    are skipped. *)
Definition simple_csv (text : string) : exn csv :=
  match filter (fun l => negb (String.eqb l "")) (split_on (ascii_of_nat 10) text) with
  | [] => Raise (OtherError "No columns to parse from file")
  | h :: ls => Ok (mkCsv (split_on "," h) (map (split_on ",") ls))
  end.

(** A file system holding only [diving_spots.csv] with the given text. *)
Definition spots_file (text : string) (path : string) : option string :=
  if String.eqb path "diving_spots.csv" then Some text else None.

Definition csv_no_lon : string := "name,lat" ++ nl ++ "Spot A,34.0" ++ nl.

Definition csv_two : string :=
  "name,lat,lon" ++ nl ++ "Spot A,34.0,139.0" ++ nl ++ "Spot B,35.0,140.0" ++ nl.

Definition csv_dup : string :=
  "name,lat,lon" ++ nl ++ "Spot A,34.0,139.0" ++ nl ++ "Spot A,35.0,140.0" ++ nl.

(** ** Inputs for the summarizer and the display path *)

(** A failure of the search provider, of the reading of its answer, or of
    the generation provider. *)
Definition summarize_fails (search : string -> string -> Z -> exn json)
  (gen : string -> exn string) (location : string) (d : date) : Prop :=
  let q := search_query location d in
  (exists e, search q "advanced" 3%Z = Raise e) \/
  (exists sr e, search q "advanced" 3%Z = Ok sr /\ build_context sr = Raise e) \/
  (exists sr ctx e, search q "advanced" 3%Z = Ok sr /\ build_context sr = Ok ctx /\
     gen (build_prompt location (month d) ctx) = Raise e).

(** A search provider that is down. *)
Definition search_down (q depth : string) (n : Z) : exn json :=
  Raise (OtherError "connection refused").

(** A generation provider that echoes a fixed list. *)
Definition gen_fixed (p : string) : exn string := Ok "- **ウミガメ**: 一年中".

(** The contents, one per line: the first content, then each further
    content after a line break. *)
Definition concat_lines (cs : list string) : string :=
  match cs with
  | [] => ""
  | c :: r => c ++ fold_right (fun x acc => nl ++ x ++ acc) "" r
  end.

(** A search provider that finds nothing. *)
Definition search_nothing (q depth : string) (n : Z) : exn json :=
  Ok (JObj [("results", JArr [])]).

(** A row at the given hour of 2024-07-15 with no samples. *)
Definition row_at (h : Z) : row :=
  mkRow (mkPreRow (Stamp 2024 7 15 h 0) JNull JNull JNull JNull JNull JNull
           JNull JNull JNull) "快晴".

(** ** The button path and the page (lines 139-215) *)

(** [d[k]] on a Python dict. *)
Definition dict_getitem {A} (d : list (string * A)) (k : string) : exn A :=
  match lookup_last k d with
  | Some v => Ok v
  | None => Raise (KeyError k)
  end.

(** [st.session_state["display_data"]]. *)
Record display_data := mkDisplay {
  dd_spot_name : string;
  dd_date : date;
  dd_df : option frame;
  dd_bio_info : string
}.

Fixpoint zeros (n : nat) : string :=
  match n with O => "" | S k => "0" ++ zeros k end.

Definition zero_pad (w : nat) (s : string) : string :=
  zeros (w - String.length s) ++ s.

(** [str(date)]: [YYYY-MM-DD] (years 1..9999, as [datetime.date]). *)
Definition date_str (d : date) : string :=
  zero_pad 4 (py_str_int (year d)) ++ "-" ++ zero_pad 2 (py_str_int (month d))
  ++ "-" ++ zero_pad 2 (py_str_int (day d)).

(** What the page shows.  The four [st.metric] calls of lines 186-190 read
    the selected row, recorded as [WMetrics]; their text formatting and the
    column and tab layout are not modelled. *)
Inductive widget : Type :=
| WHeader (s : string)
| WSubheader (s : string)
| WMarkdown (s : string)
| WCaption (s : string)
| WInfo (s : string)
| WMetrics (r : row)
| WChart (cols : list string) (df : frame).  (* st.line_chart(df.set_index("time")[cols]) *)

(** Lines 172-215: the display of the cached result. *)
Definition display (dd : display_data) : exn (list widget) :=
  let head := WHeader ("🌊 " ++ dd_spot_name dd ++ " の海況・気象予報 ("
                       ++ date_str (dd_date dd) ++ ")") in
  forecast <- match dd_df dd with
              | None => Ok []
              | Some df =>
                  r <- midday_data df ;;
                  Ok [WMetrics r; WMarkdown "---"; WSubheader "📊 時系列データ";
                      WMarkdown "#### 波の高さとうねり";
                      WChart ["波高(m)"; "うねり高(m)"] df;
                      WCaption "※うねりが高いとエントリーが難しくなる可能性があります。";
                      WMarkdown "#### 風速と気温";
                      WChart ["風速(km/h)"; "気温(°C)"] df]
              end ;;
  Ok ([head] ++ forecast ++
      [WMarkdown "---";
       WHeader ("🐠 " ++ py_str_int (month (dd_date dd)) ++ "月に期待できる生物");
       WMarkdown (dd_bio_info dd);
       WInfo "💡 Open-Meteoの予報とWeb検索結果に基づいています。現地のショップ情報も必ず確認してくださいね！"])%list.

(** The day number of a valid date (its [toordinal()] less 719163): it
    orders dates as Python compares them. *)
Definition days_from_civil (d : date) : Z :=
  let y := if (month d <=? 2)%Z then (year d - 1)%Z else year d in
  let era := (y / 400)%Z in
  let yoe := (y - era * 400)%Z in
  let mp := if (2 <? month d)%Z then (month d - 3)%Z else (month d + 9)%Z in
  let doy := ((153 * mp + 2) / 5 + day d - 1)%Z in
  let doe := (yoe * 365 + yoe / 4 - yoe / 100 + doy)%Z in
  (era * 146097 + doe - 719468)%Z.

Definition past_warning_msg : string :=
  "⚠️ 過去のデータはOpen-Meteoの仕様により取得できない場合があります（Historical APIが必要になります）".

(** Lines 151-152: [selected_date < today - timedelta(days=7)] shows the
    warning; the subtraction raises [OverflowError] below [date.min]. *)
Definition past_date_warning (today d : date) : exn (list event) :=
  let lim := (days_from_civil today - 7)%Z in
  if (lim <? days_from_civil (mkDate 1 1 1))%Z
  then Raise (OverflowError "date value out of range")
  else Ok (if (days_from_civil d <? lim)%Z then [EvWarning past_warning_msg] else []).

Section Page.
(** The registry's cells are the coordinates handed to the forecast
    requests. *)
Variable http_get_json : request string -> exn payload.
Variable to_datetime1 : json -> exn timestamp.
Variable tavily_search : string -> string -> Z -> exn json.
Variable generate_content : string -> exn string.

(** Lines 157-170: the button was pressed. *)
Definition on_fetch (reg : registry) (name : string) (d : date)
  : list event * exn display_data :=
  match (coords <- dict_getitem reg name ;;
         lat <- dict_getitem coords "lat" ;;
         lon <- dict_getitem coords "lon" ;;
         Ok (lat, lon)) with
  | Raise e => ([], Raise e)
  | Ok (lat, lon) =>
      let '(ev1, df) := get_meteo_data http_get_json to_datetime1 lat lon d in
      let '(ev2, bio) := search_marine_life tavily_search generate_content name d in
      match bio with
      | Ok b => ((ev1 ++ ev2)%list, Ok (mkDisplay name d df b))
      | Raise e => ((ev1 ++ ev2)%list, Raise e)
      end
  end.

(** One run of the page from line 151 on: [today] is the clock's date,
    [session] the cached display data, [clicked] the button, [name] and [d]
    the selected spot and date.  The result is the events, the cached data
    after the run (lines 165-170 store it before the display runs) and the
    widgets shown or the exception that ended the run. *)
Definition page_run (reg : registry) (today : date)
  (session : option display_data) (clicked : bool) (name : string) (d : date)
  : list event * option display_data * exn (list widget) :=
  match past_date_warning today d with
  | Raise e => ([], session, Raise e)
  | Ok ev0 =>
      if clicked then
        let '(ev1, r) := on_fetch reg name d in
        match r with
        | Raise e => ((ev0 ++ ev1)%list, session, Raise e)
        | Ok dd => ((ev0 ++ ev1)%list, Some dd, display dd)
        end
      else
        (ev0, session,
         match session with Some dd => display dd | None => Ok [] end)
  end.
End Page.

(** The registry loaded from [csv_no_lon]. *)
Definition registry_no_lon : registry := [("Spot A", [("lat", "34.0")])].

(** A registry with one complete spot. *)
Definition registry_a : registry := [("Spot A", [("lat", "34.0"); ("lon", "139.0")])].

(** An upstream that is unreachable. *)
Definition http_down {C} (rq : request C) : exn payload :=
  Raise (OtherError "Max retries exceeded").

(** A forecast payload of 24 hours whose first weather code is [null]. *)
Definition weather_with_null : payload :=
  PObj (Some (HObj [("time", day_times); ("temperature_2m", samples 24 28);
                    ("precipitation", samples 24 0);
                    ("weather_code", JNull :: samples 23 61);
                    ("wind_speed_10m", samples 24 12);
                    ("wind_direction_10m", samples 24 180)])).


(** A search provider whose one result has no [content]. *)
Definition search_no_content (q depth : string) (n : Z) : exn json :=
  Ok (JObj [("results", JArr [JObj [("title", JStr "Spot A")]])]).

(** The display data of a fetch whose forecast failed. *)
Definition dd_no_forecast : display_data :=
  mkDisplay "Spot A" jul15 None fallback_text.

(** A [secrets.toml] with both API keys. *)
Definition secrets_both : secrets_store :=
  Some [("general", [("GOOGLE_API_KEY", "g-key"); ("TAVILY_API_KEY", "t-key")])].

(** A [secrets.toml] whose Tavily key is empty. *)
Definition secrets_empty_tavily : secrets_store :=
  Some [("general", [("GOOGLE_API_KEY", "g-key"); ("TAVILY_API_KEY", "")])].

(** Both endpoints answer with an object without [hourly] (as an
    Open-Meteo error object). *)
Definition http_no_hourly {C} (rq : request C) : exn payload := Ok (PObj None).

(** * Properties *)

(** ** Runs on concrete inputs *)

Example weather_label_61 : weather_label 61 = "雨(軽)".
Proof. reflexivity. Qed.

Example weather_label_999 : weather_label 999 = "不明(999)".
Proof. reflexivity. Qed.

Example weather_label_neg : weather_label (-40) = "不明(-40)".
Proof. reflexivity. Qed.

(** End-to-end scenario 1: 24 rows for hours 00..23. *)
Example scenario_24_rows :
  option_map (map row_hour)
    (snd (get_meteo_data (fixed_http marine_24 weather_24) iso_to_datetime1
            34%Z 139%Z jul15))
  = Some (map (fun h => Some (Z.of_nat h)) (seq 0 24)).
Proof. vm_compute. reflexivity. Qed.

Example scenario_24_labels :
  option_map (map r_label)
    (snd (get_meteo_data (fixed_http marine_24 weather_24) iso_to_datetime1
            34%Z 139%Z jul15))
  = Some (repeat "雨(軽)" 24).
Proof. vm_compute. reflexivity. Qed.

(** ** General lemmas *)

(** Peel the successful steps of an [exn] computation off a hypothesis
    [H : (x <- m ;; k) = Ok a]. *)
Ltac exn_steps H :=
  repeat match type of H with
  | exn_bind ?m _ = Ok _ =>
      let E := fresh "E" in
      destruct m eqn:E; cbn [exn_bind] in H; [|discriminate H]
  end.

Lemma mapM_length {A B} (f : A -> exn B) :
  forall l l', mapM f l = Ok l' -> length l' = length l.
Proof.
  induction l as [|x r IH]; cbn; intros l' H.
  - injection H as <-. reflexivity.
  - exn_steps H. injection H as <-. cbn. f_equal. now apply IH.
Qed.

Lemma forallb_map_comp {A B} (f : B -> bool) (g : A -> B) (l : list A) :
  forallb f (map g l) = forallb (fun x => f (g x)) l.
Proof. induction l as [|x r IH]; cbn; [reflexivity|]. now rewrite IH. Qed.

Lemma mapM_nil_ok {A B} (f : A -> exn B) : mapM f [] = Ok [].
Proof. reflexivity. Qed.

Lemma map_nth_seq {A} (d : A) :
  forall l, map (fun i => nth i l d) (seq 0 (length l)) = l.
Proof.
  induction l as [|x r IH]; cbn; [reflexivity|].
  f_equal. rewrite <- seq_shift, map_map. exact IH.
Qed.

Lemma map_fst_combine {A B} :
  forall (l1 : list A) (l2 : list B),
  length l1 = length l2 -> map fst (combine l1 l2) = l1.
Proof.
  induction l1 as [|x r IH]; intros [|y l2] H; cbn in *; try discriminate;
    [reflexivity|]. f_equal. apply IH. lia.
Qed.

Lemma series_values_length (col : list json) (vs : list pyval) :
  series_values col = Ok vs -> length vs = length col.
Proof.
  unfold series_values. destruct (scan_column col seen0) as [r|e]; cbn [exn_bind];
    [|discriminate].
  intros H. injection H as <-.
  destruct r as [|sn]; [apply length_map|].
  destruct (_ && _); apply length_map.
Qed.

(** A successful [pd.DataFrame] has one row per time stamp, in order. *)
Lemma pd_DataFrame_ok time temp precip wind winddir code wave wavedir period
  swell rows :
  pd_DataFrame time temp precip wind winddir code wave wavedir period swell
    = Ok rows ->
  map p_time rows = time.
Proof.
  unfold pd_DataFrame. destruct (forallb _ _); [|discriminate].
  destruct (mapM series_values _); cbn [exn_bind]; [|discriminate].
  intros H. injection H as <-. rewrite map_map. apply map_nth_seq.
Qed.

(** The columns of a [pd.DataFrame]: a field whose length differs from the
    time axis makes the construction raise. *)
Lemma pd_DataFrame_mismatch time temp precip wind winddir code wave wavedir
  period swell :
  Exists (fun c => length c <> length time)
    [temp; precip; wind; winddir; code; wave; wavedir; period; swell] ->
  pd_DataFrame time temp precip wind winddir code wave wavedir period swell
  = Raise (ValueError "All arrays must be of the same length").
Proof.
  intros Hex. unfold pd_DataFrame.
  destruct (forallb _ _) eqn:Hall; [|reflexivity].
  exfalso. clear -Hall Hex. rewrite forallb_forall in Hall.
  apply Exists_exists in Hex as [c [Hin Hne]].
  apply Hne. apply Nat.eqb_eq, Hall, in_map, Hin.
Qed.

(** Columns that are all empty get their dtype without an error. *)
Lemma mapM_series_values_empty (cs : list (list json)) :
  forallb (fun c => Nat.eqb (length c) 0) cs = true ->
  exists vs, mapM series_values cs = Ok vs.
Proof.
  induction cs as [|c cs IH]; cbn [forallb mapM]; [eauto|].
  intros H. apply andb_prop in H as [Hc H].
  destruct c; [|discriminate Hc].
  destruct (IH H) as [vs Hvs]. cbn. rewrite Hvs. cbn. eauto.
Qed.

(** Building the rows after the labels: the frame keeps the row order. *)
Lemma frame_times rows labels :
  length labels = length rows ->
  map (fun r => p_time (r_pre r)) (map (fun '(r, l) => mkRow r l) (combine rows labels))
  = map p_time rows.
Proof.
  intros Hl. rewrite map_map.
  rewrite <- (map_fst_combine rows labels) at 2 by congruence.
  rewrite map_map. apply map_ext. intros [r l]. reflexivity.
Qed.

(** ** The forecast fetch *)

(** C1: [get_meteo_data] either reports the failure with [st.error] and
    returns [None], or returns a frame with one row per entry of the marine
    response's [hourly.time] array, whose time column is that array
    converted by [pd.to_datetime]. *)
Theorem get_meteo_data_rows_follow_marine_time {coord : Type}
  (http : request coord -> exn payload) (parse : json -> exn timestamp)
  (lat lon : coord) (d : date) :
  match get_meteo_data http parse lat lon d with
  | (ev, None) =>
      exists e, ev = [EvError ("気象データの取得に失敗しました: " ++ exc_str e)]
  | (ev, Some df) =>
      ev = [] /\
      exists marine hm times,
        http (marine_request lat lon d) = Ok marine /\
        payload_get_hourly marine = Ok hm /\
        hourly_get hm "time" = Ok times /\
        length df = length times /\
        mapM parse times = Ok (map (fun r => p_time (r_pre r)) df)
  end.
Proof.
  unfold get_meteo_data.
  destruct (meteo_body http parse lat lon d) as [df|e] eqn:Hb; [|eauto].
  split; [reflexivity|].
  unfold meteo_body in Hb. exn_steps Hb. injection Hb as <-.
  assert (Hlab : length a16 = length a14).
  { rewrite (mapM_length _ _ _ E16), (series_values_length _ _ E15), length_map.
    reflexivity. }
  apply pd_DataFrame_ok in E14.
  exists a, a1, a3. split; [reflexivity|]. split; [exact E1|].
  split; [exact E3|]. split.
  - rewrite length_map, length_combine, Hlab, Nat.min_id.
    rewrite <- (mapM_length _ _ _ E4), <- E14. symmetry. apply length_map.
  - rewrite frame_times by exact Hlab. rewrite E14. exact E4.
Qed.

Lemma hourly_get_obj fs k : hourly_get (HObj fs) k = Ok (field_or_nil fs k).
Proof. unfold hourly_get, field_or_nil. destruct (lookup_last k fs); reflexivity. Qed.

(** Evaluate [meteo_body] up to the [pd.DataFrame] call when both calls
    return objects of arrays and the time axis converts. *)
Lemma meteo_body_merge {coord : Type} (http : request coord -> exn payload)
  (parse : json -> exn timestamp) lat lon d pm pw mf wf ts :
  http (marine_request lat lon d) = Ok pm ->
  http (forecast_request lat lon d) = Ok pw ->
  payload_get_hourly pm = Ok (HObj mf) ->
  payload_get_hourly pw = Ok (HObj wf) ->
  mapM parse (field_or_nil mf "time") = Ok ts ->
  meteo_body http parse lat lon d =
  (rows <- pd_DataFrame ts
            (field_or_nil wf "temperature_2m") (field_or_nil wf "precipitation")
            (field_or_nil wf "wind_speed_10m") (field_or_nil wf "wind_direction_10m")
            (field_or_nil wf "weather_code") (field_or_nil mf "wave_height")
            (field_or_nil mf "wave_direction") (field_or_nil mf "wave_period")
            (field_or_nil mf "swell_wave_height") ;;
   vals <- series_values (map p_code rows) ;;
   labels <- mapM py_label vals ;;
   Ok (map (fun '(r, l) => mkRow r l) (combine rows labels))).
Proof.
  intros Hm Hw Hhm Hhw Hts. unfold meteo_body.
  rewrite Hm, Hw. cbn [exn_bind]. rewrite Hhm, Hhw. cbn [exn_bind].
  rewrite !hourly_get_obj. cbn [exn_bind]. rewrite Hts. reflexivity.
Qed.

(** C2 (counterexample): one hourly sample whose [wave_height] array is
    absent; the fetch reports the pandas length error and returns [None]
    instead of a table with an unavailable wave height. *)
Lemma get_meteo_data_absent_field_no_table :
  get_meteo_data (fixed_http marine_gap weather_1) iso_to_datetime1
    34%Z 139%Z jul15
  = ([EvError ("気象データの取得に失敗しました: " ++ "All arrays must be of the same length")],
     None).
Proof. vm_compute. reflexivity. Qed.

(** C2 (amended): when some metric array, an absent one counting as empty,
    has a length other than the marine time axis, [get_meteo_data] raises
    no exception to its caller and builds no table: it reports with
    [st.error] the error of [pd.to_datetime] when an entry of the time axis
    does not convert, and otherwise the pandas length error, and returns
    [None]. *)
Theorem get_meteo_data_length_mismatch_is_error {coord : Type}
  (http : request coord -> exn payload) (parse : json -> exn timestamp)
  lat lon d pm pw mf wf :
  http (marine_request lat lon d) = Ok pm ->
  http (forecast_request lat lon d) = Ok pw ->
  payload_get_hourly pm = Ok (HObj mf) ->
  payload_get_hourly pw = Ok (HObj wf) ->
  Exists (fun c => length c <> length (field_or_nil mf "time"))
    (metric_arrays mf wf) ->
  get_meteo_data http parse lat lon d
  = ([EvError ("気象データの取得に失敗しました: " ++
               match mapM parse (field_or_nil mf "time") with
               | Ok _ => "All arrays must be of the same length"
               | Raise e => exc_str e
               end)], None).
Proof.
  intros Hm Hw Hhm Hhw Hex. unfold get_meteo_data.
  destruct (mapM parse (field_or_nil mf "time")) as [ts|e] eqn:Hts.
  - rewrite (meteo_body_merge http parse lat lon d pm pw mf wf ts Hm Hw Hhm Hhw Hts).
    apply mapM_length in Hts. rewrite <- Hts in Hex.
    rewrite (pd_DataFrame_mismatch ts _ _ _ _ _ _ _ _ _ Hex). reflexivity.
  - unfold meteo_body. rewrite Hm, Hw. cbn [exn_bind]. rewrite Hhm, Hhw.
    cbn [exn_bind]. rewrite hourly_get_obj. cbn [exn_bind]. rewrite Hts.
    reflexivity.
Qed.

Lemma get_meteo_data_length_mismatch_is_error_witness :
  Exists (fun c => length c <> length (field_or_nil
    [("time", firstn 1 day_times); ("wave_direction", samples 1 90);
     ("wave_period", samples 1 7); ("swell_wave_height", samples 1 1)] "time"))
    (metric_arrays
       [("time", firstn 1 day_times); ("wave_direction", samples 1 90);
        ("wave_period", samples 1 7); ("swell_wave_height", samples 1 1)]
       (weather_fields 1)) /\
  get_meteo_data (fixed_http marine_gap weather_1) iso_to_datetime1
    34%Z 139%Z jul15
  = ([EvError ("気象データの取得に失敗しました: " ++
               match mapM iso_to_datetime1 (firstn 1 day_times) with
               | Ok _ => "All arrays must be of the same length"
               | Raise e => exc_str e
               end)], None).
Proof.
  assert (Hex : Exists (fun c => length c <> length (field_or_nil
    [("time", firstn 1 day_times); ("wave_direction", samples 1 90);
     ("wave_period", samples 1 7); ("swell_wave_height", samples 1 1)] "time"))
    (metric_arrays
       [("time", firstn 1 day_times); ("wave_direction", samples 1 90);
        ("wave_period", samples 1 7); ("swell_wave_height", samples 1 1)]
       (weather_fields 1))).
  { do 5 apply Exists_cons_tl. apply Exists_cons_hd. vm_compute. discriminate. }
  split; [exact Hex|].
  exact (get_meteo_data_length_mismatch_is_error
           (fixed_http marine_gap weather_1) iso_to_datetime1 34%Z 139%Z jul15
           marine_gap weather_1 _ _ eq_refl eq_refl eq_refl eq_refl Hex).
Defined.

(** C3 (counterexample): the marine time axis is empty while the forecast
    endpoint returns its 24 hours; the fetch reports an error and returns
    [None], not a table of 0 rows. *)
Lemma get_meteo_data_empty_marine_not_empty_table :
  get_meteo_data (fixed_http marine_empty weather_24) iso_to_datetime1
    34%Z 139%Z jul15
  = ([EvError ("気象データの取得に失敗しました: " ++ "All arrays must be of the same length")],
     None).
Proof. vm_compute. reflexivity. Qed.

(** C3 (amended): when the marine time axis is empty, [get_meteo_data]
    raises nothing: it returns a table of 0 rows when every metric array is
    empty or absent, and otherwise reports the pandas length error with
    [st.error] and returns [None]. *)
Theorem get_meteo_data_empty_time_axis {coord : Type}
  (http : request coord -> exn payload) (parse : json -> exn timestamp)
  lat lon d pm pw mf wf :
  http (marine_request lat lon d) = Ok pm ->
  http (forecast_request lat lon d) = Ok pw ->
  payload_get_hourly pm = Ok (HObj mf) ->
  payload_get_hourly pw = Ok (HObj wf) ->
  field_or_nil mf "time" = [] ->
  get_meteo_data http parse lat lon d =
  if forallb (fun c => Nat.eqb (length c) 0) (metric_arrays mf wf)
  then ([], Some [])
  else ([EvError ("気象データの取得に失敗しました: " ++ "All arrays must be of the same length")],
        None).
Proof.
  intros Hm Hw Hhm Hhw Ht. unfold get_meteo_data.
  assert (Hts : mapM parse (field_or_nil mf "time") = Ok []) by (rewrite Ht; reflexivity).
  rewrite (meteo_body_merge http parse lat lon d pm pw mf wf [] Hm Hw Hhm Hhw Hts).
  unfold pd_DataFrame, metric_arrays. cbv zeta. rewrite forallb_map_comp.
  cbn [length]. destruct (forallb _ _) eqn:Hall; [|reflexivity].
  destruct (mapM_series_values_empty _ Hall) as [vs Hvs].
  rewrite Hvs. reflexivity.
Qed.

Lemma get_meteo_data_empty_time_axis_witness :
  get_meteo_data (fixed_http marine_empty weather_empty) iso_to_datetime1
    34%Z 139%Z jul15 = ([], Some []).
Proof.
  exact (get_meteo_data_empty_time_axis
           (fixed_http marine_empty weather_empty) iso_to_datetime1
           34%Z 139%Z jul15 marine_empty weather_empty _ _
           eq_refl eq_refl eq_refl eq_refl eq_refl).
Defined.

(** ** The weather-code translation *)


Lemma py_label_int (z : Z) : py_label (PyInt z) = Ok (weather_label z).
Proof.
  unfold py_label, weather_label. cbn [option_map].
  destruct (assoc_Z z WEATHER_CODE_MAP); reflexivity.
Qed.

(** Below 2^53 every integer is a float64, printed as its digits and [.0]. *)
Lemma f64_of_int_small (z : Z) :
  (Z.abs z <= 2 ^ 53)%Z -> f64_of_int z = Some z /\ float_repr z = py_str_int z ++ ".0".
Proof.
  intros Hz. split.
  - unfold f64_of_int.
    assert (Ha : f64_round_nonneg (Z.abs z) = Z.abs z).
    { unfold f64_round_nonneg.
      destruct (Z.abs z <? 2 ^ 53)%Z eqn:Hlt; [reflexivity|].
      apply Z.ltb_ge in Hlt. replace (Z.abs z) with (2 ^ 53)%Z by lia.
      vm_compute. reflexivity. }
    rewrite Ha. replace (2 ^ 1024 <=? Z.abs z)%Z with false.
    + f_equal. destruct (z <? 0)%Z eqn:Hn; [apply Z.ltb_lt in Hn|apply Z.ltb_ge in Hn]; lia.
    + symmetry. apply Z.leb_gt. lia.
  - unfold float_repr. replace (Z.abs z <? 10 ^ 16)%Z with true; [reflexivity|].
    symmetry. apply Z.ltb_lt. lia.
Qed.




(** ** The marine-life summarizer *)

(** [search_marine_life] step by step: the search, the context, the
    generation, and the handler after the first failing step. *)
Lemma search_marine_life_eq
  (search : string -> string -> Z -> exn json) (gen : string -> exn string)
  (location : string) (d : date) :
  let q := search_query location d in
  let fail e := EvError ("生物情報の検索に失敗しました: " ++ exc_str e) in
  search_marine_life search gen location d =
  match search q "advanced" 3%Z with
  | Raise e => ([EvSearch q "advanced" 3; fail e], Ok fallback_text)
  | Ok sr =>
      match build_context sr with
      | Raise e => ([EvSearch q "advanced" 3; fail e], Ok fallback_text)
      | Ok ctx =>
          let p := build_prompt location (month d) ctx in
          match gen p with
          | Ok t => ([EvSearch q "advanced" 3; EvGenerate p], Ok t)
          | Raise e => ([EvSearch q "advanced" 3; EvGenerate p; fail e],
                        Ok fallback_text)
          end
      end
  end.
Proof.
  cbv zeta. unfold search_marine_life, st_try, summarize_body, summarize_handler,
    st_bind, st_emit, st_lift, st_ret.
  cbn [app].
  destruct (search (search_query location d) "advanced" 3%Z) as [sr|e];
    [|reflexivity].
  destruct (build_context sr) as [ctx|e]; [|reflexivity].
  destruct (gen _); reflexivity.
Qed.

(** C5: whatever fails in the search or the generation, no exception
    leaves [search_marine_life]: the failure is reported with [st.error]
    (the last effect) and the non-empty fallback text is returned. *)
Theorem search_marine_life_failure_fallback
  (search : string -> string -> Z -> exn json) (gen : string -> exn string)
  (location : string) (d : date) :
  summarize_fails search gen location d ->
  exists ev e,
    search_marine_life search gen location d
    = ((ev ++ [EvError ("生物情報の検索に失敗しました: " ++ exc_str e)])%list,
       Ok fallback_text) /\
    fallback_text <> "".
Proof.
  intros Hf. rewrite search_marine_life_eq. cbv zeta.
  destruct Hf as [[e He] | [[sr [e [Hs He]]] | [sr [ctx [e [Hs [Hc He]]]]]]].
  - rewrite He. exists [EvSearch (search_query location d) "advanced" 3], e.
    split; [reflexivity|discriminate].
  - rewrite Hs, He. exists [EvSearch (search_query location d) "advanced" 3], e.
    split; [reflexivity|discriminate].
  - rewrite Hs, Hc, He.
    exists [EvSearch (search_query location d) "advanced" 3;
            EvGenerate (build_prompt location (month d) ctx)], e.
    split; [reflexivity|discriminate].
Qed.

Lemma search_marine_life_failure_fallback_witness :
  summarize_fails search_down gen_fixed "Spot A" jul15 /\
  exists ev e,
    search_marine_life search_down gen_fixed "Spot A" jul15
    = ((ev ++ [EvError ("生物情報の検索に失敗しました: " ++ exc_str e)])%list,
       Ok fallback_text) /\
    fallback_text <> "".
Proof.
  assert (Hf : summarize_fails search_down gen_fixed "Spot A" jul15).
  { left. eexists. reflexivity. }
  split; [exact Hf|].
  exact (search_marine_life_failure_fallback search_down gen_fixed "Spot A" jul15 Hf).
Defined.

Lemma str_app_nil_r (s : string) : s ++ "" = s.
Proof. induction s as [|c s IH]; cbn; [reflexivity|]. now rewrite IH. Qed.

Lemma py_join_nl_concat_lines (cs : list string) : py_join nl cs = concat_lines cs.
Proof.
  induction cs as [|c r IH]; [reflexivity|].
  destruct r as [|c' r']; cbn.
  - now rewrite str_app_nil_r.
  - cbn in IH. rewrite IH. reflexivity.
Qed.

Lemma mapM_content_forall2 (items : list json) (cs : list string) :
  Forall2 (fun res c => json_getitem res "content" = Ok (JStr c)) items cs ->
  exists contents,
    mapM (fun res => json_getitem res "content") items = Ok contents /\
    mapM as_str contents = Ok cs.
Proof.
  induction 1 as [|res c items' cs' Hc _ [contents [H1 H2]]].
  - exists []. split; reflexivity.
  - exists (JStr c :: contents). cbn. rewrite Hc. cbn. rewrite H1. cbn.
    rewrite H2. split; reflexivity.
Qed.

(** C9: when the search answer is [{"results": [...]}] and each result has
    a string [content], the prompt sent to the model carries, as its
    context, those contents in the order returned, one per line (the empty
    string for zero results); the model is called and its text returned
    (or the fallback text if it fails). *)
Theorem search_marine_life_context
  (search : string -> string -> Z -> exn json) (gen : string -> exn string)
  (location : string) (d : date) (sr : json) (items : list json)
  (cs : list string) :
  search (search_query location d) "advanced" 3%Z = Ok sr ->
  json_getitem sr "results" = Ok (JArr items) ->
  Forall2 (fun res c => json_getitem res "content" = Ok (JStr c)) items cs ->
  let p := build_prompt location (month d) (concat_lines cs) in
  exists ev,
    search_marine_life search gen location d
    = ((EvSearch (search_query location d) "advanced" 3 :: EvGenerate p :: ev)%list,
       match gen p with Ok t => Ok t | Raise _ => Ok fallback_text end).
Proof.
  intros Hs Hr Hc p. rewrite search_marine_life_eq. cbv zeta. rewrite Hs.
  destruct (mapM_content_forall2 items cs Hc) as [contents [H1 H2]].
  assert (Hctx : build_context sr = Ok (concat_lines cs)).
  { unfold build_context. rewrite Hr. cbn [exn_bind py_iter]. rewrite H1.
    cbn [exn_bind]. rewrite H2. cbn [exn_bind].
    now rewrite py_join_nl_concat_lines. }
  rewrite Hctx. fold p. destruct (gen p) as [t|e].
  - exists []. reflexivity.
  - exists [EvError ("生物情報の検索に失敗しました: " ++ exc_str e)]. reflexivity.
Qed.

Lemma search_marine_life_context_witness :
  exists ev,
    search_marine_life search_nothing gen_fixed "Spot A" jul15
    = ((EvSearch (search_query "Spot A" jul15) "advanced" 3
        :: EvGenerate (build_prompt "Spot A" 7 "") :: ev)%list,
       Ok "- **ウミガメ**: 一年中").
Proof.
  exact (search_marine_life_context search_nothing gen_fixed "Spot A" jul15
           (JObj [("results", JArr [])]) [] [] eq_refl eq_refl (Forall2_nil _)).
Defined.

(** ** The noon row *)

Lemma is_noon_hour (r : row) : is_noon r = true <-> row_hour r = Some 12%Z.
Proof.
  unfold is_noon. destruct (row_hour r) as [h|]; split; intros H;
    try discriminate.
  - apply Z.eqb_eq in H. now subst.
  - injection H as ->. reflexivity.
Qed.

Lemma filter_first_noon (df : frame) :
  forall i r,
  nth_error df i = Some r -> row_hour r = Some 12%Z ->
  (forall j rj, (j < i)%nat -> nth_error df j = Some rj -> row_hour rj <> Some 12%Z) ->
  exists rest, filter is_noon df = r :: rest.
Proof.
  induction df as [|x df IH]; intros i r Hi Hr Hbefore;
    [destruct i; discriminate|].
  destruct i as [|i]; cbn in Hi.
  - injection Hi as ->. cbn. apply is_noon_hour in Hr. rewrite Hr. eauto.
  - cbn. destruct (is_noon x) eqn:Hx.
    + exfalso. apply (Hbefore 0%nat x); [lia|reflexivity|].
      now apply is_noon_hour.
    + apply (IH i r Hi Hr). intros j rj Hj Hn.
      apply (Hbefore (S j) rj); [lia|exact Hn].
Qed.

Lemma filter_no_noon (df : frame) :
  (forall r, In r df -> row_hour r <> Some 12%Z) -> filter is_noon df = [].
Proof.
  induction df as [|x df IH]; intros H; [reflexivity|]. cbn.
  destruct (is_noon x) eqn:Hx.
  - exfalso. apply (H x); [now left|]. now apply is_noon_hour.
  - apply IH. intros r Hr. apply H. now right.
Qed.

(** C6: on a non-empty frame, the representative row of the display path
    is the first row whose hour is 12 when there is one, and otherwise the
    middle row, at index [len(df) // 2]. *)
Theorem midday_data_policy (df : frame) :
  df <> [] ->
  (forall i r,
     nth_error df i = Some r -> row_hour r = Some 12%Z ->
     (forall j rj, (j < i)%nat -> nth_error df j = Some rj -> row_hour rj <> Some 12%Z) ->
     midday_data df = Ok r) /\
  ((forall r, In r df -> row_hour r <> Some 12%Z) ->
   exists r, nth_error df (length df / 2) = Some r /\ midday_data df = Ok r).
Proof.
  intros Hne. split.
  - intros i r Hi Hr Hbefore. unfold midday_data.
    destruct (filter_first_noon df i r Hi Hr Hbefore) as [rest ->].
    reflexivity.
  - intros Hnone. unfold midday_data. rewrite (filter_no_noon df Hnone).
    destruct (nth_error df (length df / 2)) as [r|] eqn:Hn.
    + eauto.
    + exfalso. apply nth_error_None in Hn. destruct df; [contradiction|].
      cbn [length] in Hn.
      assert (S (length df) / 2 < S (length df))%nat
        by (apply Nat.div_lt; lia). lia.
Qed.

Lemma midday_data_policy_witness :
  [row_at 0; row_at 12; row_at 13] <> [] /\
  midday_data [row_at 0; row_at 12; row_at 13] = Ok (row_at 12).
Proof.
  assert (Hne : [row_at 0; row_at 12; row_at 13] <> []) by discriminate.
  split; [exact Hne|].
  apply (proj1 (midday_data_policy _ Hne) 1%nat); [reflexivity|reflexivity|].
  intros j rj Hj Hn. destruct j as [|j]; [|lia].
  injection Hn as <-. discriminate.
Defined.

(** ** The spot registry *)

Lemma has_dup_false_NoDup (l : list string) : has_dup l = false <-> NoDup l.
Proof.
  induction l as [|x r IH]; cbn.
  - split; [constructor|reflexivity].
  - rewrite orb_false_iff. split.
    + intros [Hx Hr]. constructor; [|now apply IH].
      intros Hin. assert (existsb (String.eqb x) r = true) as Hc.
      { apply existsb_exists. exists x. split; [exact Hin|apply String.eqb_refl]. }
      congruence.
    + intros Hnd. inversion Hnd as [|? ? Hnin Hnd']. split; [|now apply IH].
      destruct (existsb (String.eqb x) r) eqn:Hc; [|reflexivity].
      apply existsb_exists in Hc as [y [Hy Heq]].
      apply String.eqb_eq in Heq. subst y. contradiction.
Qed.

Lemma index_of_In (k : string) :
  forall l, (exists i, index_of k l = Some i) <-> In k l.
Proof.
  induction l as [|x r IH]; cbn.
  - split; [intros [i H]; discriminate|contradiction].
  - destruct (String.eqb k x) eqn:Hk.
    + apply String.eqb_eq in Hk. subst. split; [now left|eauto].
    + apply String.eqb_neq in Hk. split.
      * intros [i H]. destruct (index_of k r) as [j|] eqn:Hj; [|discriminate].
        right. apply IH. eauto.
      * intros [Hx|Hin]; [congruence|]. apply IH in Hin as [j Hj].
        rewrite Hj. cbn. eauto.
Qed.

Lemma spot_names_index (t : csv) (i : nat) :
  index_of "name" (header t) = Some i ->
  spot_names t = map (fun r => nth i r "") (rows t).
Proof. unfold spot_names. intros ->. reflexivity. Qed.

(** [set_index("name")] followed by [to_dict("index")] on a table whose
    name column is at [i]. *)
Lemma set_index_to_dict (t : csv) (i : nat) :
  index_of "name" (header t) = Some i ->
  (ix <- set_index "name" t ;; to_dict_index ix) =
  if has_dup (spot_names t)
  then Raise (ValueError "DataFrame index must be unique for orient='index'.")
  else Ok (map (fun r => (nth i r "", combine (remove_at i (header t)) (remove_at i r)))
             (rows t)).
Proof.
  intros Hi. unfold set_index. rewrite Hi. cbn [exn_bind to_dict_index].
  rewrite (spot_names_index t i Hi), map_map. cbn [fst].
  destruct (has_dup _); [reflexivity|]. rewrite map_map. reflexivity.
Qed.

(** C7 (counterexample): a spot file with columns [name] and [lat] but no
    [lon] loads without error. *)
Lemma load_spots_without_lon_loads :
  load_spots (spots_file csv_no_lon) simple_csv
  = Continue [] [("Spot A", [("lat", "34.0")])].
Proof. vm_compute. reflexivity. Qed.

(** C7 (amended): the spot registry load never lets an exception through.
    It stops the run ([st.error], then [st.stop()]) exactly when
    [diving_spots.csv] is missing, the CSV reader fails on it, it has no
    [name] column, or a name occurs twice; otherwise it continues with one
    entry per row, keyed by the names in file order, whatever the other
    columns are (a table without [lat] or [lon] loads). *)
Theorem load_spots_outcome (files : string -> option string)
  (parse : string -> exn csv) :
  match load_spots files parse with
  | Continue ev reg =>
      ev = [] /\
      exists t, read_csv files parse "diving_spots.csv" = Ok t /\
        In "name" (header t) /\ NoDup (spot_names t) /\
        map fst reg = spot_names t
  | Stopped ev =>
      (exists e, ev = [EvError ("スポット情報の読み込みに失敗しました: " ++ exc_str e); EvStop]) /\
      (files "diving_spots.csv" = None \/
       (exists text e, files "diving_spots.csv" = Some text /\ parse text = Raise e) \/
       (exists t, read_csv files parse "diving_spots.csv" = Ok t /\
          (~ In "name" (header t) \/ ~ NoDup (spot_names t))))
  | Uncaught _ _ => False
  end.
Proof.
  unfold load_spots.
  destruct (read_csv files parse "diving_spots.csv") as [t|e] eqn:Hr;
    cbn [exn_bind].
  - destruct (index_of "name" (header t)) as [i|] eqn:Hi.
    + rewrite (set_index_to_dict t i Hi).
      destruct (has_dup (spot_names t)) eqn:Hd.
      * split; [eauto|]. right. right. exists t. split; [reflexivity|].
        right. intros Hnd. apply has_dup_false_NoDup in Hnd. congruence.
      * split; [reflexivity|]. exists t. split; [reflexivity|].
        split; [apply index_of_In; eauto|].
        split; [now apply has_dup_false_NoDup|].
        rewrite map_map. cbn [fst]. symmetry. exact (spot_names_index t i Hi).
    + unfold set_index. rewrite Hi. cbn [exn_bind].
      split; [eauto|]. right. right. exists t. split; [reflexivity|].
      left. intros Hin. apply index_of_In in Hin as [j Hj]. congruence.
  - split; [eauto|]. unfold read_csv in Hr.
    destruct (files "diving_spots.csv") as [text|] eqn:Hf; [|now left].
    right. left. eauto.
Qed.

(** C10: a spot file whose [name] column repeats a name is rejected: the
    run stops with the pandas uniqueness error; no entry overwrites another. *)
Theorem load_spots_rejects_duplicate_names (files : string -> option string)
  (parse : string -> exn csv) (t : csv) :
  read_csv files parse "diving_spots.csv" = Ok t ->
  In "name" (header t) ->
  ~ NoDup (spot_names t) ->
  load_spots files parse =
  Stopped [EvError ("スポット情報の読み込みに失敗しました: "
                    ++ "DataFrame index must be unique for orient='index'."); EvStop].
Proof.
  intros Hr Hin Hdup. unfold load_spots. rewrite Hr. cbn [exn_bind].
  apply index_of_In in Hin as [i Hi]. rewrite (set_index_to_dict t i Hi).
  destruct (has_dup (spot_names t)) eqn:Hd; [reflexivity|].
  exfalso. apply Hdup. now apply has_dup_false_NoDup.
Qed.

Lemma load_spots_rejects_duplicate_names_witness :
  read_csv (spots_file csv_dup) simple_csv "diving_spots.csv"
    = Ok (mkCsv ["name"; "lat"; "lon"]
                [["Spot A"; "34.0"; "139.0"]; ["Spot A"; "35.0"; "140.0"]]) /\
  load_spots (spots_file csv_dup) simple_csv =
  Stopped [EvError ("スポット情報の読み込みに失敗しました: "
                    ++ "DataFrame index must be unique for orient='index'."); EvStop].
Proof.
  assert (Hr : read_csv (spots_file csv_dup) simple_csv "diving_spots.csv"
    = Ok (mkCsv ["name"; "lat"; "lon"]
                [["Spot A"; "34.0"; "139.0"]; ["Spot A"; "35.0"; "140.0"]]))
    by (vm_compute; reflexivity).
  split; [exact Hr|].
  apply (load_spots_rejects_duplicate_names _ _ _ Hr).
  - cbn. now left.
  - intros Hnd. apply has_dup_false_NoDup in Hnd. vm_compute in Hnd.
    discriminate Hnd.
Defined.

(** ** The secrets *)

(** C8: when either API key is missing from [st.secrets["general"]], the
    start-up never reaches the interactive page and never loads the spot
    registry: without [secrets.toml] the run is stopped after the
    missing-file message; with the file, the [KeyError] naming the missing
    section or key ends the run (Streamlit shows it). *)
Theorem startup_missing_secret_halts (files : string -> option string)
  (parse : string -> exn csv) (s : secrets_store) :
  secret_present s "GOOGLE_API_KEY" = false \/
  secret_present s "TAVILY_API_KEY" = false ->
  match startup files parse s with
  | Continue _ _ => False
  | Stopped ev =>
      s = None /\
      ev = [EvError "secrets.tomlファイルが見つかりません。APIキーを設定してください。"; EvStop]
  | Uncaught ev e =>
      ev = [] /\
      exists k, In k ["general"; "GOOGLE_API_KEY"; "TAVILY_API_KEY"] /\
        e = KeyError ("st.secrets has no key " ++ k)
  end.
Proof.
  intros Hmiss. unfold startup, load_secrets, secrets_get.
  destruct s as [secs|]; [|split; reflexivity].
  unfold secret_present in Hmiss.
  destruct (lookup_last "general" secs) as [kvs|].
  2: { cbn. split; [reflexivity|]. exists "general". split; [now left|reflexivity]. }
  destruct (lookup_last "GOOGLE_API_KEY" kvs) as [g|]; cbn [exn_bind].
  2: { split; [reflexivity|]. exists "GOOGLE_API_KEY". split; [right; now left|reflexivity]. }
  destruct (lookup_last "TAVILY_API_KEY" kvs) as [tk|]; cbn [exn_bind].
  2: { split; [reflexivity|]. exists "TAVILY_API_KEY".
       split; [right; right; now left|reflexivity]. }
  destruct Hmiss; discriminate.
Qed.

Lemma startup_missing_secret_halts_witness :
  (secret_present (Some [("general", [("GOOGLE_API_KEY", "g-key")])]) "GOOGLE_API_KEY" = false \/
   secret_present (Some [("general", [("GOOGLE_API_KEY", "g-key")])]) "TAVILY_API_KEY" = false) /\
  match startup (spots_file csv_dup) simple_csv
          (Some [("general", [("GOOGLE_API_KEY", "g-key")])]) with
  | Continue _ _ => False
  | Stopped ev =>
      Some [("general", [("GOOGLE_API_KEY", "g-key")])] = None /\
      ev = [EvError "secrets.tomlファイルが見つかりません。APIキーを設定してください。"; EvStop]
  | Uncaught ev e =>
      ev = [] /\
      exists k, In k ["general"; "GOOGLE_API_KEY"; "TAVILY_API_KEY"] /\
        e = KeyError ("st.secrets has no key " ++ k)
  end.
Proof.
  assert (Hm : secret_present (Some [("general", [("GOOGLE_API_KEY", "g-key")])]) "GOOGLE_API_KEY" = false \/
               secret_present (Some [("general", [("GOOGLE_API_KEY", "g-key")])]) "TAVILY_API_KEY" = false)
    by (right; reflexivity).
  split; [exact Hm|].
  exact (startup_missing_secret_halts (spots_file csv_dup) simple_csv _ Hm).
Defined.

(** The display path on an empty frame: the middle-row fallback indexes
    outside the frame. *)
Example midday_data_empty : exists e, midday_data [] = Raise e.
Proof. eexists. reflexivity. Qed.

(** End-to-end scenario 4: no search result; the model is still called,
    with an empty context, and its text is returned. *)
Example scenario_no_results :
  search_marine_life search_nothing gen_fixed "Spot A" jul15
  = ([EvSearch (search_query "Spot A" jul15) "advanced" 3;
      EvGenerate (build_prompt "Spot A" 7 "")], Ok "- **ウミガメ**: 一年中").
Proof. vm_compute. reflexivity. Qed.

(** * Further properties of the code *)

(** ** Helper lemmas *)

Lemma mapM_ok_Forall2 {A B} (f : A -> exn B) :
  forall l l', mapM f l = Ok l' -> Forall2 (fun x y => f x = Ok y) l l'.
Proof.
  induction l as [|x r IH]; cbn; intros l' H.
  - injection H as <-. constructor.
  - exn_steps H. injection H as <-. constructor; [assumption|now apply IH].
Qed.

Lemma Forall2_nth_error {A B} (P : A -> B -> Prop) :
  forall l l' i x, Forall2 P l l' -> nth_error l i = Some x ->
  exists y, nth_error l' i = Some y /\ P x y.
Proof.
  intros l l' i x H. revert i. induction H as [|a b l l' Hab _ IH]; intros i Hi;
    [destruct i; discriminate|].
  destruct i as [|i]; cbn in Hi |- *; [injection Hi as <-; eauto|].
  now apply IH.
Qed.

Lemma mapM_raise_Exists {A B} (f : A -> exn B) :
  forall l, Exists (fun x => exists e, f x = Raise e) l ->
  exists e, mapM f l = Raise e.
Proof.
  induction 1 as [x r [e He]|x r _ [e IH]]; cbn.
  - rewrite He. cbn. eauto.
  - destruct (f x); cbn; [rewrite IH; cbn|]; eauto.
Qed.

(** Row [i] of a successful [pd.DataFrame] holds the [i]-th entry of every
    array. *)
Lemma pd_DataFrame_nth time temp precip wind winddir code wave wavedir period
  swell rows i pr :
  pd_DataFrame time temp precip wind winddir code wave wavedir period swell
    = Ok rows ->
  nth_error rows i = Some pr ->
  pr = mkPreRow (nth i time NaT) (nth i temp JNull) (nth i precip JNull)
         (nth i wind JNull) (nth i winddir JNull) (nth i code JNull)
         (nth i wave JNull) (nth i wavedir JNull) (nth i period JNull)
         (nth i swell JNull).
Proof.
  unfold pd_DataFrame. destruct (forallb _ _); [|discriminate].
  destruct (mapM series_values _); cbn [exn_bind]; [|discriminate].
  intros H. injection H as <-. intros Hi.
  rewrite nth_error_map, nth_error_seq in Hi.
  destruct (i <? length time)%nat; [|discriminate].
  injection Hi as <-. reflexivity.
Qed.

Lemma nth_error_combine_rows (rows : list pre_row) (labels : list string) :
  forall i r,
  nth_error (map (fun '(pr, l) => mkRow pr l) (combine rows labels)) i = Some r ->
  exists pr l, nth_error rows i = Some pr /\ nth_error labels i = Some l /\
               r = mkRow pr l.
Proof.
  revert labels. induction rows as [|pr rows IH]; intros [|l labels] i r H;
    try (destruct i; discriminate).
  destruct i as [|i]; cbn in H |- *.
  - injection H as <-. eauto.
  - now apply IH.
Qed.

Lemma pd_DataFrame_code time temp precip wind winddir code wave wavedir period
  swell rows :
  pd_DataFrame time temp precip wind winddir code wave wavedir period swell
    = Ok rows ->
  map p_code rows = code.
Proof.
  unfold pd_DataFrame. destruct (forallb _ _) eqn:Hall; [|discriminate].
  destruct (mapM series_values _); cbn [exn_bind]; [|discriminate].
  intros H. injection H as <-. rewrite map_map. cbn [p_code].
  rewrite forallb_forall in Hall.
  assert (Hc : length code = length time).
  { apply Nat.eqb_eq, Hall. cbn. tauto. }
  rewrite <- Hc. apply map_nth_seq.
Qed.

(** A frame returned for two objects of arrays comes from the merge of
    their arrays. *)
Lemma get_meteo_data_success {coord : Type}
  (http : request coord -> exn payload) (parse : json -> exn timestamp)
  lat lon d pm pw mf wf ev df :
  http (marine_request lat lon d) = Ok pm ->
  http (forecast_request lat lon d) = Ok pw ->
  payload_get_hourly pm = Ok (HObj mf) ->
  payload_get_hourly pw = Ok (HObj wf) ->
  get_meteo_data http parse lat lon d = (ev, Some df) ->
  exists ts rows vals labels,
    pd_DataFrame ts
      (field_or_nil wf "temperature_2m") (field_or_nil wf "precipitation")
      (field_or_nil wf "wind_speed_10m") (field_or_nil wf "wind_direction_10m")
      (field_or_nil wf "weather_code") (field_or_nil mf "wave_height")
      (field_or_nil mf "wave_direction") (field_or_nil mf "wave_period")
      (field_or_nil mf "swell_wave_height") = Ok rows /\
    series_values (map p_code rows) = Ok vals /\
    mapM py_label vals = Ok labels /\
    df = map (fun '(r, l) => mkRow r l) (combine rows labels).
Proof.
  intros Hm Hw Hhm Hhw Hg. unfold get_meteo_data in Hg.
  destruct (mapM parse (field_or_nil mf "time")) as [ts|e] eqn:Hts.
  - rewrite (meteo_body_merge http parse lat lon d pm pw mf wf ts Hm Hw Hhm Hhw Hts)
      in Hg.
    destruct (pd_DataFrame _ _ _ _ _ _ _ _ _ _) as [rows|e] eqn:Hpd;
      cbn [exn_bind] in Hg; [|discriminate].
    destruct (series_values _) as [vals|e] eqn:Hv; cbn [exn_bind] in Hg;
      [|discriminate].
    destruct (mapM py_label _) as [labels|e] eqn:Hl; cbn [exn_bind] in Hg;
      [|discriminate].
    injection Hg as _ <-. exists ts, rows, vals, labels. auto.
  - unfold meteo_body in Hg. rewrite Hm, Hw in Hg. cbn [exn_bind] in Hg.
    rewrite Hhm, Hhw in Hg. cbn [exn_bind] in Hg. rewrite hourly_get_obj in Hg.
    cbn [exn_bind] in Hg. rewrite Hts in Hg. discriminate.
Qed.

(** A column of numbers is never read as float64. *)
Lemma scan_column_nums (col : list json) :
  forall s r, forallb is_num col = true -> s_null s = false ->
  scan_column col s = Ok r ->
  match r with SDone s' => s_null s' = false | SObject => True end.
Proof.
  induction col as [|j col IH]; intros s r Hn Hs H; cbn [scan_column] in H.
  - injection H as <-. exact Hs.
  - destruct j as [| |z| | |]; try discriminate Hn. cbn [forallb is_num andb] in Hn.
    destruct (f64_of_int z); [|discriminate]. rewrite Hs in H. cbv zeta in H.
    match type of H with
    | (if ?c then _ else _) = _ => destruct c
    end; [injection H as <-; exact I|].
    refine (IH _ _ Hn _ H); reflexivity.
Qed.

Lemma series_values_nums (col : list json) (vs : list pyval) :
  forallb is_num col = true -> series_values col = Ok vs ->
  vs = map object_value col.
Proof.
  intros Hn. unfold series_values.
  destruct (scan_column col seen0) as [r|e] eqn:Hs; cbn [exn_bind];
    [|discriminate].
  intros H. injection H as <-.
  pose proof (scan_column_nums col seen0 r Hn eq_refl Hs) as Hr.
  destruct r as [|s']; [reflexivity|]. rewrite Hr.
  rewrite andb_false_r. reflexivity.
Qed.

Definition small_or_null (j : json) : bool :=
  match j with JNum z => (Z.abs z <=? 2 ^ 53)%Z | JNull => true | _ => false end.

Lemma scan_column_small (col : list json) :
  forall s, forallb small_or_null col = true ->
  s_bool s = false -> s_uint s = false ->
  exists s', scan_column col s = Ok (SDone s') /\
    s_null s' = s_null s || existsb is_null col /\
    s_int s' = s_int s || existsb is_num col /\
    s_bool s' = false.
Proof.
  induction col as [|j col IH]; intros s Hc Hb Hu; cbn [scan_column].
  - exists s. rewrite !orb_false_r. auto.
  - cbn [forallb] in Hc. apply andb_prop in Hc as [Hj Hc].
    destruct j as [| |z| | |]; try discriminate Hj.
    + destruct (IH (mkSeen true (s_int s) (s_bool s) (s_uint s) (s_sint s))
                  Hc Hb Hu) as [s' [H1 [H2 [H3 H4]]]].
      exists s'. rewrite H2, H3. cbn [s_null s_int existsb is_null is_num orb].
      rewrite orb_true_r. auto.
    + cbn in Hj. apply Z.leb_le in Hj.
      destruct (f64_of_int_small z Hj) as [Hf _]. rewrite Hf.
      assert (Hbig : (2 ^ 53 < 2 ^ 63 - 1)%Z) by (vm_compute; reflexivity).
      assert (Hbig' : (2 ^ 63 - 1 < 2 ^ 64 - 1)%Z) by (vm_compute; reflexivity).
      assert (Hneg : (- 2 ^ 63 < - 2 ^ 53)%Z) by (vm_compute; reflexivity).
      destruct (s_null s) eqn:Hn.
      * destruct (IH (mkSeen true true (s_bool s) (s_uint s) (s_sint s)) Hc Hb Hu)
          as [s' [H1 [H2 [H3 H4]]]].
        exists s'. rewrite H2, H3, ?Hn. cbn [s_null s_int existsb is_null is_num orb].
        rewrite ?orb_true_r. auto.
      * rewrite Hu, Hb.
        replace ((2 ^ 63 - 1 <? z)%Z) with false
          by (symmetry; apply Z.ltb_ge; lia).
        replace ((2 ^ 64 - 1 <? z)%Z) with false
          by (symmetry; apply Z.ltb_ge; lia).
        replace ((z <? - 2 ^ 63)%Z) with false
          by (symmetry; apply Z.ltb_ge; lia).
        cbn [andb orb s_uint].
        destruct (IH (mkSeen false true false false
                        (s_sint s || (- 2 ^ 63 <=? z)%Z && (z <? 0)%Z))
                    Hc eq_refl eq_refl) as [s' [H1 [H2 [H3 H4]]]].
        exists s'. rewrite H2, H3, ?Hn. cbn [s_null s_int existsb is_null is_num orb].
        rewrite ?orb_true_r. auto.
Qed.

(** A column whose pass ends holds no string, list or object. *)
Lemma scan_column_done_scalar (col : list json) :
  forall s s' j, scan_column col s = Ok (SDone s') -> In j col ->
  match j with JArr _ | JObj _ | JStr _ => False | _ => True end.
Proof.
  induction col as [|k col IH]; intros s s' j H Hj; [destruct Hj|].
  cbn [scan_column] in H.
  destruct k as [| |z| | |]; try discriminate H;
    (destruct Hj as [<-|Hj]; [exact I|]).
  - exact (IH _ _ _ H Hj).
  - exact (IH _ _ _ H Hj).
  - destruct (f64_of_int z); [|discriminate].
    destruct (s_null s); [exact (IH _ _ _ H Hj)|].
    destruct (_ || _ || _); [discriminate|exact (IH _ _ _ H Hj)].
Qed.

(** ** The forecast fetch *)

(** X1: the fetch is all or nothing: when the marine request fails, or it
    succeeds and the forecast request fails, [get_meteo_data] shows the
    failure's text with [st.error] and returns [None]. *)
Theorem get_meteo_data_request_failure {coord : Type}
  (http : request coord -> exn payload) (parse : json -> exn timestamp)
  lat lon d e :
  http (marine_request lat lon d) = Raise e \/
  (exists pm, http (marine_request lat lon d) = Ok pm /\
              http (forecast_request lat lon d) = Raise e) ->
  get_meteo_data http parse lat lon d
  = ([EvError ("気象データの取得に失敗しました: " ++ exc_str e)], None).
Proof.
  intros [He | [pm [Hm He]]]; unfold get_meteo_data, meteo_body.
  - rewrite He. reflexivity.
  - rewrite Hm. cbn [exn_bind]. rewrite He. reflexivity.
Qed.

Lemma get_meteo_data_request_failure_witness :
  get_meteo_data http_down iso_to_datetime1 34%Z 139%Z jul15
  = ([EvError ("気象データの取得に失敗しました: " ++ "Max retries exceeded")], None).
Proof.
  exact (get_meteo_data_request_failure http_down iso_to_datetime1 34%Z 139%Z
           jul15 (OtherError "Max retries exceeded") (or_introl eq_refl)).
Defined.

(** X2: the merge is index-aligned: row [i] of a returned frame holds the
    [i]-th entry of each metric array of the two responses. *)
Theorem get_meteo_data_row_alignment {coord : Type}
  (http : request coord -> exn payload) (parse : json -> exn timestamp)
  lat lon d pm pw mf wf ev df :
  http (marine_request lat lon d) = Ok pm ->
  http (forecast_request lat lon d) = Ok pw ->
  payload_get_hourly pm = Ok (HObj mf) ->
  payload_get_hourly pw = Ok (HObj wf) ->
  get_meteo_data http parse lat lon d = (ev, Some df) ->
  forall i r, nth_error df i = Some r ->
    p_temp (r_pre r) = nth i (field_or_nil wf "temperature_2m") JNull /\
    p_precip (r_pre r) = nth i (field_or_nil wf "precipitation") JNull /\
    p_wind (r_pre r) = nth i (field_or_nil wf "wind_speed_10m") JNull /\
    p_winddir (r_pre r) = nth i (field_or_nil wf "wind_direction_10m") JNull /\
    p_code (r_pre r) = nth i (field_or_nil wf "weather_code") JNull /\
    p_wave (r_pre r) = nth i (field_or_nil mf "wave_height") JNull /\
    p_wavedir (r_pre r) = nth i (field_or_nil mf "wave_direction") JNull /\
    p_period (r_pre r) = nth i (field_or_nil mf "wave_period") JNull /\
    p_swell (r_pre r) = nth i (field_or_nil mf "swell_wave_height") JNull.
Proof.
  intros Hm Hw Hhm Hhw Hg i r Hi.
  destruct (get_meteo_data_success http parse lat lon d pm pw mf wf ev df
              Hm Hw Hhm Hhw Hg) as [ts [rows [vals [labels [Hpd [_ [_ ->]]]]]]].
  apply nth_error_combine_rows in Hi as [pr [l [Hr [_ ->]]]].
  rewrite (pd_DataFrame_nth _ _ _ _ _ _ _ _ _ _ _ _ _ Hpd Hr).
  cbn. repeat split.
Qed.

Lemma get_meteo_data_row_alignment_witness :
  match get_meteo_data (fixed_http marine_24 weather_24) iso_to_datetime1
          34%Z 139%Z jul15 with
  | (_, Some df) =>
      match nth_error df 12 with
      | Some r =>
          p_temp (r_pre r) = JNum 28 /\ p_precip (r_pre r) = JNum 0 /\
          p_wind (r_pre r) = JNum 12 /\ p_winddir (r_pre r) = JNum 180 /\
          p_code (r_pre r) = JNum 61 /\ p_wave (r_pre r) = JNum 1 /\
          p_wavedir (r_pre r) = JNum 90 /\ p_period (r_pre r) = JNum 7 /\
          p_swell (r_pre r) = JNum 1
      | None => False
      end
  | (_, None) => False
  end.
Proof.
  destruct (get_meteo_data (fixed_http marine_24 weather_24) iso_to_datetime1
              34%Z 139%Z jul15) as [ev [df|]] eqn:Hg;
    [|vm_compute in Hg; discriminate Hg].
  destruct (nth_error df 12) as [r|] eqn:Hr.
  - exact (get_meteo_data_row_alignment (fixed_http marine_24 weather_24)
             iso_to_datetime1 34%Z 139%Z jul15 marine_24 weather_24 _ _ ev df
             eq_refl eq_refl eq_refl eq_refl Hg 12 r Hr).
  - vm_compute in Hg. injection Hg as _ <-. vm_compute in Hr. discriminate Hr.
Defined.

Lemma Forall2_nth_error_r {A B} (P : A -> B -> Prop) :
  forall l l' i y, Forall2 P l l' -> nth_error l' i = Some y ->
  exists x, nth_error l i = Some x /\ P x y.
Proof.
  intros l l' i y H. revert i. induction H as [|a b l l' Hab _ IH]; intros i Hi;
    [destruct i; discriminate|].
  destruct i as [|i]; cbn in Hi |- *.
  - injection Hi as <-. eauto.
  - now apply IH.
Qed.

Lemma mapM_ok_In {A B} (f : A -> exn B) :
  forall l l' x, mapM f l = Ok l' -> In x l -> exists y, f x = Ok y.
Proof.
  intros l l' x H Hx. apply mapM_ok_Forall2 in H.
  induction H as [|a b l l' Hab _ IH]; [destruct Hx|].
  destruct Hx as [<-|Hx]; eauto.
Qed.

(** A row's label is the translation of the value the weather-code column
    holds at the row's index, read with the column's dtype. *)
Lemma get_meteo_data_row_label {coord : Type}
  (http : request coord -> exn payload) (parse : json -> exn timestamp)
  lat lon d pm pw mf wf ev df i r :
  http (marine_request lat lon d) = Ok pm ->
  http (forecast_request lat lon d) = Ok pw ->
  payload_get_hourly pm = Ok (HObj mf) ->
  payload_get_hourly pw = Ok (HObj wf) ->
  get_meteo_data http parse lat lon d = (ev, Some df) ->
  nth_error df i = Some r ->
  nth_error (field_or_nil wf "weather_code") i = Some (p_code (r_pre r)) /\
  exists vs v, series_values (field_or_nil wf "weather_code") = Ok vs /\
               nth_error vs i = Some v /\ py_label v = Ok (r_label r).
Proof.
  intros Hm Hw Hhm Hhw Hg Hi.
  destruct (get_meteo_data_success http parse lat lon d pm pw mf wf ev df
              Hm Hw Hhm Hhw Hg) as [ts [rows [vals [labels [Hpd [Hv [Hl ->]]]]]]].
  apply nth_error_combine_rows in Hi as [pr [l [Hr [Hli ->]]]].
  pose proof (pd_DataFrame_code _ _ _ _ _ _ _ _ _ _ _ Hpd) as Hc.
  rewrite Hc in Hv. cbn [r_pre r_label]. split.
  - rewrite <- Hc, nth_error_map, Hr. reflexivity.
  - apply mapM_ok_Forall2 in Hl.
    destruct (Forall2_nth_error_r _ _ _ _ _ Hl Hli) as [v [Hvi Hpv]].
    exists vals, v. auto.
Qed.

(** X3: when every entry of the weather-code column is a JSON integer,
    pandas gives [Series.map] each code as a Python [int], and each row's
    label is the table's label of its code, or [不明(<code>)] for a code
    outside the table. *)
Theorem get_meteo_data_labels_int_column {coord : Type}
  (http : request coord -> exn payload) (parse : json -> exn timestamp)
  lat lon d pm pw mf wf ev df :
  http (marine_request lat lon d) = Ok pm ->
  http (forecast_request lat lon d) = Ok pw ->
  payload_get_hourly pm = Ok (HObj mf) ->
  payload_get_hourly pw = Ok (HObj wf) ->
  get_meteo_data http parse lat lon d = (ev, Some df) ->
  forallb is_num (field_or_nil wf "weather_code") = true ->
  forall i r z, nth_error df i = Some r -> p_code (r_pre r) = JNum z ->
  r_label r = weather_label z.
Proof.
  intros Hm Hw Hhm Hhw Hg Hnum i r z Hi Hz.
  destruct (get_meteo_data_row_label http parse lat lon d pm pw mf wf ev df i r
              Hm Hw Hhm Hhw Hg Hi) as [Hc [vs [v [Hvs [Hv Hl]]]]].
  rewrite (series_values_nums _ _ Hnum Hvs), nth_error_map, Hc, Hz in Hv.
  injection Hv as <-. rewrite py_label_int in Hl. now injection Hl.
Qed.

Lemma get_meteo_data_labels_int_column_witness :
  match get_meteo_data (fixed_http marine_24 weather_24) iso_to_datetime1
          34%Z 139%Z jul15 with
  | (_, Some df) =>
      match nth_error df 3 with
      | Some r => r_label r = weather_label 61
      | None => False
      end
  | (_, None) => False
  end.
Proof.
  destruct (get_meteo_data (fixed_http marine_24 weather_24) iso_to_datetime1
              34%Z 139%Z jul15) as [ev [df|]] eqn:Hg;
    [|vm_compute in Hg; discriminate Hg].
  destruct (nth_error df 3) as [r|] eqn:Hr.
  - apply (get_meteo_data_labels_int_column (fixed_http marine_24 weather_24)
             iso_to_datetime1 34%Z 139%Z jul15 marine_24 weather_24 _ _ ev df
             eq_refl eq_refl eq_refl eq_refl Hg eq_refl 3 r 61 Hr).
    vm_compute in Hg. injection Hg as _ <-. vm_compute in Hr.
    injection Hr as <-. reflexivity.
  - vm_compute in Hg. injection Hg as _ <-. vm_compute in Hr. discriminate Hr.
Defined.

(** X4: when the weather-code column mixes JSON integers with [null]s and
    every code [z] has |z| <= 2^53, pandas reads the column as float64 with
    each code's exact value: a row with code [z] gets the table's label of
    [z], or [不明(<z>.0)] for a code outside the table, and a row whose code
    is [null] gets [不明(nan)]. *)
Theorem get_meteo_data_labels_null_column {coord : Type}
  (http : request coord -> exn payload) (parse : json -> exn timestamp)
  lat lon d pm pw mf wf ev df :
  http (marine_request lat lon d) = Ok pm ->
  http (forecast_request lat lon d) = Ok pw ->
  payload_get_hourly pm = Ok (HObj mf) ->
  payload_get_hourly pw = Ok (HObj wf) ->
  get_meteo_data http parse lat lon d = (ev, Some df) ->
  forallb small_or_null (field_or_nil wf "weather_code") = true ->
  existsb is_null (field_or_nil wf "weather_code") = true ->
  existsb is_num (field_or_nil wf "weather_code") = true ->
  forall i r, nth_error df i = Some r ->
  r_label r = match p_code (r_pre r) with
              | JNum z =>
                  match assoc_Z z WEATHER_CODE_MAP with
                  | Some l => l
                  | None => "不明(" ++ (py_str_int z ++ ".0") ++ ")"
                  end
              | _ => "不明(nan)"
              end.
Proof.
  intros Hm Hw Hhm Hhw Hg Hall Hnull Hnum i r Hi.
  destruct (get_meteo_data_row_label http parse lat lon d pm pw mf wf ev df i r
              Hm Hw Hhm Hhw Hg Hi) as [Hc [vs [v [Hvs [Hv Hl]]]]].
  destruct (scan_column_small _ seen0 Hall eq_refl eq_refl)
    as [s' [Hsc [Hsn [Hsi Hsb]]]].
  unfold series_values in Hvs. rewrite Hsc in Hvs. cbn [exn_bind] in Hvs.
  injection Hvs as <-. rewrite Hsn, Hsi, Hsb, Hnull, Hnum in Hv.
  cbn [negb andb orb seen0 s_null s_int] in Hv.
  rewrite nth_error_map, Hc in Hv. injection Hv as <-.
  pose proof (nth_error_In _ _ Hc) as Hin.
  rewrite forallb_forall in Hall. specialize (Hall _ Hin).
  destruct (p_code (r_pre r)) as [| |z| | |]; try discriminate Hall;
    unfold float_value, py_label in Hl;
    cbn [option_map] in Hl |- *; try (injection Hl as <-; reflexivity).
  apply Z.leb_le in Hall. destruct (f64_of_int_small z Hall) as [Hf Hr].
  rewrite Hf in Hl. cbn [option_map py_str] in Hl. rewrite Hr in Hl.
  destruct (assoc_Z z WEATHER_CODE_MAP); injection Hl as <-; reflexivity.
Qed.

Lemma get_meteo_data_labels_null_column_witness :
  match get_meteo_data (fixed_http marine_24 weather_with_null) iso_to_datetime1
          34%Z 139%Z jul15 with
  | (_, Some df) =>
      match nth_error df 0 with
      | Some r => r_label r = "不明(nan)"
      | None => False
      end
  | (_, None) => False
  end.
Proof.
  destruct (get_meteo_data (fixed_http marine_24 weather_with_null)
              iso_to_datetime1 34%Z 139%Z jul15) as [ev [df|]] eqn:Hg;
    [|vm_compute in Hg; discriminate Hg].
  destruct (nth_error df 0) as [r|] eqn:Hr.
  - rewrite (get_meteo_data_labels_null_column
               (fixed_http marine_24 weather_with_null) iso_to_datetime1
               34%Z 139%Z jul15 marine_24 weather_with_null _ _ ev df
               eq_refl eq_refl eq_refl eq_refl Hg eq_refl eq_refl eq_refl 0 r Hr).
    vm_compute in Hg. injection Hg as _ <-. vm_compute in Hr.
    injection Hr as <-. reflexivity.
  - vm_compute in Hg. injection Hg as _ <-. vm_compute in Hr. discriminate Hr.
Defined.

(** X5: a fetch that returns a table never met a list or an object among
    the weather codes: such a code is unhashable for the dict lookup of the
    label, and the fetch fails instead. *)
Theorem get_meteo_data_codes_hashable {coord : Type}
  (http : request coord -> exn payload) (parse : json -> exn timestamp)
  lat lon d pm pw mf wf ev df :
  http (marine_request lat lon d) = Ok pm ->
  http (forecast_request lat lon d) = Ok pw ->
  payload_get_hourly pm = Ok (HObj mf) ->
  payload_get_hourly pw = Ok (HObj wf) ->
  get_meteo_data http parse lat lon d = (ev, Some df) ->
  forall j, In j (field_or_nil wf "weather_code") ->
  match j with JArr _ | JObj _ => False | _ => True end.
Proof.
  intros Hm Hw Hhm Hhw Hg j Hj.
  destruct (get_meteo_data_success http parse lat lon d pm pw mf wf ev df
              Hm Hw Hhm Hhw Hg) as [ts [rows [vals [labels [Hpd [Hv [Hl _]]]]]]].
  rewrite (pd_DataFrame_code _ _ _ _ _ _ _ _ _ _ _ Hpd) in Hv.
  unfold series_values in Hv.
  destruct (scan_column _ seen0) as [[|s']|e] eqn:Hs; cbn [exn_bind] in Hv;
    [| |discriminate Hv]; injection Hv as <-.
  - destruct (mapM_ok_In _ _ _ (object_value j) Hl (in_map _ _ _ Hj))
      as [y Hy].
    destruct j; cbn in Hy; try discriminate; exact I.
  - pose proof (scan_column_done_scalar _ _ _ j Hs Hj) as Hsc.
    destruct j; tauto.
Qed.

Lemma get_meteo_data_codes_hashable_witness :
  match get_meteo_data (fixed_http marine_24 weather_with_null) iso_to_datetime1
          34%Z 139%Z jul15 with
  | (_, Some df) => True
  | (_, None) => False
  end /\
  match JNull with JArr _ | JObj _ => False | _ => True end.
Proof.
  destruct (get_meteo_data (fixed_http marine_24 weather_with_null)
              iso_to_datetime1 34%Z 139%Z jul15) as [ev [df|]] eqn:Hg;
    [|vm_compute in Hg; discriminate Hg].
  split; [exact I|].
  exact (get_meteo_data_codes_hashable (fixed_http marine_24 weather_with_null)
           iso_to_datetime1 34%Z 139%Z jul15 marine_24 weather_with_null _ _ ev df
           eq_refl eq_refl eq_refl eq_refl Hg JNull (or_introl eq_refl)).
Defined.

(** X6: when neither response has an [hourly] member, the fetch reports
    nothing and returns a table with no row: [.get('hourly', {})] turns the
    missing data into empty arrays.  An [hourly] member that is [null] is
    not missing: when the marine response has one (and the forecast
    response is an object), the fetch reports the [AttributeError] of
    [None.get] and returns [None]. *)
Theorem get_meteo_data_no_hourly {coord : Type}
  (http : request coord -> exn payload) (parse : json -> exn timestamp)
  lat lon d :
  (http (marine_request lat lon d) = Ok (PObj None) ->
   http (forecast_request lat lon d) = Ok (PObj None) ->
   get_meteo_data http parse lat lon d = ([], Some [])) /\
  (forall hw,
   http (marine_request lat lon d) = Ok (PObj (Some (HOther "NoneType"))) ->
   http (forecast_request lat lon d) = Ok (PObj hw) ->
   get_meteo_data http parse lat lon d
   = ([EvError ("気象データの取得に失敗しました: " ++
                "'NoneType' object has no attribute 'get'")], None)).
Proof.
  split.
  - intros Hm Hw. unfold get_meteo_data, meteo_body. rewrite Hm. cbn [exn_bind].
    rewrite Hw. reflexivity.
  - intros hw Hm Hw. unfold get_meteo_data, meteo_body. rewrite Hm. cbn [exn_bind].
    rewrite Hw. cbn [exn_bind payload_get_hourly].
    destruct hw as [h|]; reflexivity.
Qed.

Lemma get_meteo_data_no_hourly_witness :
  get_meteo_data http_no_hourly iso_to_datetime1 34%Z 139%Z jul15 = ([], Some []) /\
  get_meteo_data (fixed_http (PObj (Some (HOther "NoneType"))) weather_24)
    iso_to_datetime1 34%Z 139%Z jul15
  = ([EvError ("気象データの取得に失敗しました: " ++
               "'NoneType' object has no attribute 'get'")], None).
Proof.
  split.
  - exact (proj1 (get_meteo_data_no_hourly http_no_hourly iso_to_datetime1
                    34%Z 139%Z jul15) eq_refl eq_refl).
  - exact (proj2 (get_meteo_data_no_hourly
                    (fixed_http (PObj (Some (HOther "NoneType"))) weather_24)
                    iso_to_datetime1 34%Z 139%Z jul15) _ eq_refl eq_refl).
Defined.

(** ** The summarizer *)

(** X7: [search_marine_life] never raises: it returns either the fixed
    fallback text or the text the model returned for a prompt it was sent
    (recorded in the trace). *)
Theorem search_marine_life_result_origin
  (search : string -> string -> Z -> exn json) (gen : string -> exn string)
  (location : string) (d : date) :
  let '(ev, r) := search_marine_life search gen location d in
  exists t, r = Ok t /\
    (t = fallback_text \/ exists p, In (EvGenerate p) ev /\ gen p = Ok t).
Proof.
  rewrite search_marine_life_eq. cbv zeta.
  destruct (search _ _ _) as [sr|e]; [|eauto].
  destruct (build_context sr) as [ctx|e]; [|eauto].
  destruct (gen _) as [t|e] eqn:Hg; [|eauto].
  exists t. split; [reflexivity|]. right.
  exists (build_prompt location (month d) ctx). split; [cbn; tauto|exact Hg].
Qed.

(** X8: when the search raises, or its answer cannot be read, the model is
    never called: the trace is the search call and the error message only,
    and the fallback text is returned. *)
Theorem search_marine_life_search_failure_skips_model
  (search : string -> string -> Z -> exn json) (gen : string -> exn string)
  (location : string) (d : date) (e : pyexc) :
  let q := search_query location d in
  search q "advanced" 3%Z = Raise e \/
  (exists sr, search q "advanced" 3%Z = Ok sr /\ build_context sr = Raise e) ->
  search_marine_life search gen location d
  = ([EvSearch q "advanced" 3; EvError ("生物情報の検索に失敗しました: " ++ exc_str e)],
     Ok fallback_text).
Proof.
  intros q H. rewrite search_marine_life_eq. cbv zeta. fold q.
  destruct H as [He | [sr [Hs Hc]]].
  - rewrite He. reflexivity.
  - rewrite Hs, Hc. reflexivity.
Qed.

Lemma search_marine_life_search_failure_skips_model_witness :
  search_marine_life search_down gen_fixed "Spot A" jul15
  = ([EvSearch (search_query "Spot A" jul15) "advanced" 3;
      EvError ("生物情報の検索に失敗しました: " ++ "connection refused")],
     Ok fallback_text).
Proof.
  exact (search_marine_life_search_failure_skips_model search_down gen_fixed
           "Spot A" jul15 (OtherError "connection refused") (or_introl eq_refl)).
Defined.

Lemma Forall2_In_l {A B} (P : A -> B -> Prop) :
  forall l l' x, Forall2 P l l' -> In x l -> exists y, In y l' /\ P x y.
Proof.
  intros l l' x H. induction H as [|a b l l' Hab _ IH]; [contradiction|].
  intros [<-|Hx]; [exists b; split; [left|]; auto|].
  destruct (IH Hx) as [y [Hy Hp]]. exists y. split; [right|]; auto.
Qed.

(** [build_context] raises as soon as one result has no string [content]. *)
Lemma build_context_bad_item (sr : json) (items : list json) :
  json_getitem sr "results" = Ok (JArr items) ->
  Exists (fun res => forall c, json_getitem res "content" <> Ok (JStr c)) items ->
  exists e, build_context sr = Raise e.
Proof.
  intros Hr Hbad. unfold build_context. rewrite Hr. cbn [exn_bind py_iter].
  destruct (mapM (fun res => json_getitem res "content") items)
    as [contents|e] eqn:Hm; cbn [exn_bind]; [|eauto].
  apply mapM_ok_Forall2 in Hm.
  apply Exists_exists in Hbad as [it [Hit Hb]].
  destruct (Forall2_In_l _ _ _ _ Hm Hit) as [y [Hy Hgy]].
  destruct (mapM_raise_Exists as_str contents) as [e He].
  { apply Exists_exists. exists y. split; [exact Hy|].
    destruct y; try (eexists; reflexivity).
    exfalso. exact (Hb _ Hgy). }
  rewrite He. cbn [exn_bind]. eauto.
Qed.

(** X9: when one search result lacks a string [content], the whole summary
    falls back: the model is not called, the failure is shown, and the
    fallback text is returned. *)
Theorem search_marine_life_result_without_content
  (search : string -> string -> Z -> exn json) (gen : string -> exn string)
  (location : string) (d : date) (sr : json) (items : list json) :
  let q := search_query location d in
  search q "advanced" 3%Z = Ok sr ->
  json_getitem sr "results" = Ok (JArr items) ->
  Exists (fun res => forall c, json_getitem res "content" <> Ok (JStr c)) items ->
  exists e,
    search_marine_life search gen location d
    = ([EvSearch q "advanced" 3; EvError ("生物情報の検索に失敗しました: " ++ exc_str e)],
       Ok fallback_text).
Proof.
  intros q Hs Hr Hbad.
  destruct (build_context_bad_item sr items Hr Hbad) as [e He].
  exists e. rewrite search_marine_life_eq. cbv zeta. fold q.
  rewrite Hs, He. reflexivity.
Qed.

Lemma search_marine_life_result_without_content_witness :
  exists e,
    search_marine_life search_no_content gen_fixed "Spot A" jul15
    = ([EvSearch (search_query "Spot A" jul15) "advanced" 3;
        EvError ("生物情報の検索に失敗しました: " ++ exc_str e)],
       Ok fallback_text).
Proof.
  apply (search_marine_life_result_without_content search_no_content gen_fixed
           "Spot A" jul15 _ [JObj [("title", JStr "Spot A")]] eq_refl eq_refl).
  constructor. intros c. discriminate.
Defined.

(** ** The noon row and the display *)

Lemma midday_data_raise_nil (df : frame) (e : pyexc) :
  midday_data df = Raise e -> df = [].
Proof.
  intros He. destruct df as [|r rest]; [reflexivity|].
  unfold midday_data in He.
  destruct (filter is_noon (r :: rest)); [|discriminate].
  destruct (nth_error (r :: rest) _) eqn:Hn; [discriminate|].
  apply nth_error_None in Hn. cbn [length] in Hn.
  assert (S (length rest) / 2 < S (length rest))%nat by (apply Nat.div_lt; lia).
  lia.
Qed.

Lemma midday_data_ok_In (df : frame) (r : row) :
  midday_data df = Ok r -> In r df.
Proof.
  unfold midday_data. destruct (filter is_noon df) as [|r' rest] eqn:Hf.
  - destruct (nth_error df _) as [r'|] eqn:Hn; [|discriminate].
    intros H. injection H as <-. eapply nth_error_In. exact Hn.
  - intros H. injection H as <-.
    assert (Hin : In r' (filter is_noon df)) by (rewrite Hf; now left).
    apply filter_In in Hin. tauto.
Qed.

(** X10: the noon-row selection raises (pandas' out-of-bounds [iloc]) exactly
    on the empty table. *)
Theorem midday_data_raises_iff_empty (df : frame) :
  (exists e, midday_data df = Raise e) <-> df = [].
Proof.
  split.
  - intros [e He]. exact (midday_data_raise_nil df e He).
  - intros ->. eexists. reflexivity.
Qed.

(** X11: the row shown in the metrics is a row of the table. *)
Theorem midday_data_in_frame (df : frame) (r : row) :
  midday_data df = Ok r -> In r df.
Proof. exact (midday_data_ok_In df r). Qed.

Lemma midday_data_in_frame_witness :
  midday_data [row_at 9; row_at 12] = Ok (row_at 12) /\
  In (row_at 12) [row_at 9; row_at 12].
Proof.
  split; [reflexivity|].
  exact (midday_data_in_frame [row_at 9; row_at 12] (row_at 12) eq_refl).
Defined.

(** X12: the display of the cached data raises exactly when it holds a
    table with no row (the [iloc] of the noon row fails); a missing table
    or a non-empty one is displayed. *)
Theorem display_raises_iff_empty_table (dd : display_data) :
  (exists e, display dd = Raise e) <-> dd_df dd = Some [].
Proof.
  unfold display. destruct (dd_df dd) as [df|]; cbn [exn_bind].
  - destruct (midday_data df) as [r|e] eqn:Hm; cbn [exn_bind].
    + split; [intros [e He]; discriminate|].
      intros H. injection H as ->. discriminate.
    + split; [|eauto]. intros _.
      f_equal. exact (midday_data_raise_nil df e Hm).
  - split; [intros [e He]; discriminate|discriminate].
Qed.

(** X13: a cached result without a forecast table shows the header, then
    the marine-life section directly: no metrics and no charts. *)
Theorem display_without_forecast (dd : display_data) :
  dd_df dd = None ->
  display dd =
  Ok [WHeader ("🌊 " ++ dd_spot_name dd ++ " の海況・気象予報 ("
               ++ date_str (dd_date dd) ++ ")");
      WMarkdown "---";
      WHeader ("🐠 " ++ py_str_int (month (dd_date dd)) ++ "月に期待できる生物");
      WMarkdown (dd_bio_info dd);
      WInfo "💡 Open-Meteoの予報とWeb検索結果に基づいています。現地のショップ情報も必ず確認してくださいね！"].
Proof. intros H. unfold display. rewrite H. reflexivity. Qed.

Lemma display_without_forecast_witness :
  dd_df dd_no_forecast = None /\
  display dd_no_forecast =
  Ok [WHeader ("🌊 " ++ "Spot A" ++ " の海況・気象予報 (" ++ "2024-07-15" ++ ")");
      WMarkdown "---";
      WHeader ("🐠 " ++ "7" ++ "月に期待できる生物");
      WMarkdown fallback_text;
      WInfo "💡 Open-Meteoの予報とWeb検索結果に基づいています。現地のショップ情報も必ず確認してくださいね！"].
Proof.
  split; [reflexivity|].
  exact (display_without_forecast dd_no_forecast eq_refl).
Defined.

(** X14: every successful display shows the cached marine-life text, and
    the metrics it shows come from a row of the cached table. *)
Theorem display_shows_bio_and_table_rows (dd : display_data) (ws : list widget) :
  display dd = Ok ws ->
  In (WMarkdown (dd_bio_info dd)) ws /\
  (forall r, In (WMetrics r) ws -> exists df, dd_df dd = Some df /\ In r df).
Proof.
  unfold display. destruct (dd_df dd) as [df|] eqn:Hdf; cbn [exn_bind].
  - destruct (midday_data df) as [r|e] eqn:Hm; cbn [exn_bind]; [|discriminate].
    intros H. injection H as <-. split; [cbn; tauto|].
    intros r' Hr'. exists df. split; [reflexivity|].
    cbn in Hr'.
    repeat (destruct Hr' as [Hr'|Hr']; [try discriminate|]);
      try (injection Hr' as <-; now apply midday_data_ok_In);
      contradiction.
  - intros H. injection H as <-. split; [cbn; tauto|].
    intros r' Hr'. cbn in Hr'.
    repeat (destruct Hr' as [Hr'|Hr']; [discriminate|]). contradiction.
Qed.

Lemma display_shows_bio_and_table_rows_witness :
  In (WMarkdown fallback_text)
    (match display dd_no_forecast with Ok ws => ws | Raise _ => [] end).
Proof.
  exact (proj1 (display_shows_bio_and_table_rows dd_no_forecast _ eq_refl)).
Defined.

(** ** The button path and the page *)

Lemma search_marine_life_ok
  (search : string -> string -> Z -> exn json) (gen : string -> exn string)
  (location : string) (d : date) :
  exists b, snd (search_marine_life search gen location d) = Ok b.
Proof.
  rewrite search_marine_life_eq. cbv zeta.
  destruct (search _ _ _) as [sr|e]; [|eexists; reflexivity].
  destruct (build_context sr) as [ctx|e]; [|eexists; reflexivity].
  destruct (gen _); eexists; reflexivity.
Qed.

(** [on_fetch] once the spot and its two coordinates are found. *)
Lemma on_fetch_found
  (http : request string -> exn payload) (parse : json -> exn timestamp)
  (search : string -> string -> Z -> exn json) (gen : string -> exn string)
  (reg : registry) (name : string) (d : date) coords lat lon :
  lookup_last name reg = Some coords ->
  lookup_last "lat" coords = Some lat ->
  lookup_last "lon" coords = Some lon ->
  exists b, snd (search_marine_life search gen name d) = Ok b /\
  on_fetch http parse search gen reg name d
  = ((fst (get_meteo_data http parse lat lon d)
      ++ fst (search_marine_life search gen name d))%list,
     Ok (mkDisplay name d (snd (get_meteo_data http parse lat lon d)) b)).
Proof.
  intros Hn Hla Hlo. unfold on_fetch, dict_getitem.
  rewrite Hn. cbn [exn_bind]. rewrite Hla. cbn [exn_bind]. rewrite Hlo.
  cbn [exn_bind].
  destruct (search_marine_life_ok search gen name d) as [b Hb].
  destruct (get_meteo_data http parse lat lon d) as [ev1 df].
  destruct (search_marine_life search gen name d) as [ev2 bio].
  cbn in Hb |- *. subst bio. eauto.
Qed.

(** X15: a fetch for a spot without a [lat] or [lon] entry raises the
    [KeyError] of the missing key before any provider is called; nothing
    catches it. *)
Theorem on_fetch_missing_coordinate
  (http : request string -> exn payload) (parse : json -> exn timestamp)
  (search : string -> string -> Z -> exn json) (gen : string -> exn string)
  (reg : registry) (name : string) (d : date) coords (k : string) :
  lookup_last name reg = Some coords ->
  (lookup_last "lat" coords = None /\ k = "lat") \/
  (exists lat, lookup_last "lat" coords = Some lat /\
               lookup_last "lon" coords = None /\ k = "lon") ->
  on_fetch http parse search gen reg name d = ([], Raise (KeyError k)).
Proof.
  intros Hn Hk. unfold on_fetch, dict_getitem. rewrite Hn. cbn [exn_bind].
  destruct Hk as [[Hla ->] | [lat [Hla [Hlo ->]]]].
  - rewrite Hla. reflexivity.
  - rewrite Hla. cbn [exn_bind]. rewrite Hlo. reflexivity.
Qed.

Lemma on_fetch_missing_coordinate_witness :
  on_fetch http_down iso_to_datetime1 search_down gen_fixed registry_no_lon
    "Spot A" jul15 = ([], Raise (KeyError "lon")).
Proof.
  apply (on_fetch_missing_coordinate http_down iso_to_datetime1 search_down
           gen_fixed registry_no_lon "Spot A" jul15 [("lat", "34.0")] "lon"
           eq_refl).
  right. exists "34.0". repeat split.
Defined.

(** X16: once the spot's coordinates are found, the fetch never raises,
    whatever the providers do: the cached data holds the forecast result
    ([None] on failure) and the summarizer's text, and the trace is the
    forecast's effects followed by the summarizer's. *)
Theorem on_fetch_complete_spot
  (http : request string -> exn payload) (parse : json -> exn timestamp)
  (search : string -> string -> Z -> exn json) (gen : string -> exn string)
  (reg : registry) (name : string) (d : date) coords lat lon :
  lookup_last name reg = Some coords ->
  lookup_last "lat" coords = Some lat ->
  lookup_last "lon" coords = Some lon ->
  exists b, snd (search_marine_life search gen name d) = Ok b /\
  on_fetch http parse search gen reg name d
  = ((fst (get_meteo_data http parse lat lon d)
      ++ fst (search_marine_life search gen name d))%list,
     Ok (mkDisplay name d (snd (get_meteo_data http parse lat lon d)) b)).
Proof. exact (on_fetch_found http parse search gen reg name d coords lat lon). Qed.

Lemma on_fetch_complete_spot_witness :
  exists b, snd (search_marine_life search_down gen_fixed "Spot A" jul15) = Ok b /\
  on_fetch http_down iso_to_datetime1 search_down gen_fixed registry_a "Spot A" jul15
  = ((fst (get_meteo_data http_down iso_to_datetime1 "34.0" "139.0" jul15)
      ++ fst (search_marine_life search_down gen_fixed "Spot A" jul15))%list,
     Ok (mkDisplay "Spot A" jul15
           (snd (get_meteo_data http_down iso_to_datetime1 "34.0" "139.0" jul15)) b)).
Proof.
  exact (on_fetch_complete_spot http_down iso_to_datetime1 search_down gen_fixed
           registry_a "Spot A" jul15 _ "34.0" "139.0" eq_refl eq_refl eq_refl).
Defined.

(** X17: a click on a complete spot whose forecast fails still renders the
    page: the header and the marine-life section, with no metrics or
    charts, and the result is cached; the events are the date warning's,
    then the fetch's. *)
Theorem page_run_forecast_failure
  (http : request string -> exn payload) (parse : json -> exn timestamp)
  (search : string -> string -> Z -> exn json) (gen : string -> exn string)
  (reg : registry) (today : date) (session : option display_data)
  (name : string) (d : date) coords lat lon ev0 ev1 :
  past_date_warning today d = Ok ev0 ->
  lookup_last name reg = Some coords ->
  lookup_last "lat" coords = Some lat ->
  lookup_last "lon" coords = Some lon ->
  get_meteo_data http parse lat lon d = (ev1, None) ->
  exists b, snd (search_marine_life search gen name d) = Ok b /\
  page_run http parse search gen reg today session true name d
  = ((ev0 ++ ev1 ++ fst (search_marine_life search gen name d))%list,
     Some (mkDisplay name d None b),
     Ok [WHeader ("🌊 " ++ name ++ " の海況・気象予報 (" ++ date_str d ++ ")");
          WMarkdown "---";
          WHeader ("🐠 " ++ py_str_int (month d) ++ "月に期待できる生物");
          WMarkdown b;
          WInfo "💡 Open-Meteoの予報とWeb検索結果に基づいています。現地のショップ情報も必ず確認してくださいね！"]).
Proof.
  intros Hw Hn Hla Hlo Hg.
  destruct (on_fetch_found http parse search gen reg name d coords lat lon
              Hn Hla Hlo) as [b [Hb Hf]].
  exists b. split; [exact Hb|].
  unfold page_run. rewrite Hw, Hf, Hg. reflexivity.
Qed.

Lemma page_run_forecast_failure_witness :
  exists b, snd (search_marine_life search_down gen_fixed "Spot A" jul15) = Ok b /\
  page_run http_down iso_to_datetime1 search_down gen_fixed registry_a jul15 None
    true "Spot A" jul15
  = (([] ++ [EvError ("気象データの取得に失敗しました: " ++ "Max retries exceeded")]
      ++ fst (search_marine_life search_down gen_fixed "Spot A" jul15))%list,
     Some (mkDisplay "Spot A" jul15 None b),
     Ok [WHeader ("🌊 " ++ "Spot A" ++ " の海況・気象予報 (" ++ date_str jul15 ++ ")");
          WMarkdown "---";
          WHeader ("🐠 " ++ py_str_int (month jul15) ++ "月に期待できる生物");
          WMarkdown b;
          WInfo "💡 Open-Meteoの予報とWeb検索結果に基づいています。現地のショップ情報も必ず確認してくださいね！"]).
Proof.
  exact (page_run_forecast_failure http_down iso_to_datetime1 search_down
           gen_fixed registry_a jul15 None "Spot A" jul15 _ "34.0" "139.0" _ _
           eq_refl eq_refl eq_refl eq_refl eq_refl).
Defined.

(** X18: a click on a complete spot whose forecast table is empty (an
    empty marine time axis) fetches and caches the result, then the page
    raises at the noon row: the uncaught [IndexError] ends the run, and the
    next run finds the cached data. *)
Theorem page_run_empty_table_raises
  (http : request string -> exn payload) (parse : json -> exn timestamp)
  (search : string -> string -> Z -> exn json) (gen : string -> exn string)
  (reg : registry) (today : date) (session : option display_data)
  (name : string) (d : date) coords lat lon ev0 ev1 :
  past_date_warning today d = Ok ev0 ->
  lookup_last name reg = Some coords ->
  lookup_last "lat" coords = Some lat ->
  lookup_last "lon" coords = Some lon ->
  get_meteo_data http parse lat lon d = (ev1, Some []) ->
  exists b, snd (search_marine_life search gen name d) = Ok b /\
  page_run http parse search gen reg today session true name d
  = ((ev0 ++ ev1 ++ fst (search_marine_life search gen name d))%list,
     Some (mkDisplay name d (Some []) b),
     Raise (IndexError "single positional indexer is out-of-bounds")).
Proof.
  intros Hw Hn Hla Hlo Hg.
  destruct (on_fetch_found http parse search gen reg name d coords lat lon
              Hn Hla Hlo) as [b [Hb Hf]].
  exists b. split; [exact Hb|].
  unfold page_run. rewrite Hw, Hf, Hg. reflexivity.
Qed.

Lemma page_run_empty_table_raises_witness :
  exists b, snd (search_marine_life search_down gen_fixed "Spot A" jul15) = Ok b /\
  page_run (fixed_http marine_empty weather_empty) iso_to_datetime1 search_down
    gen_fixed registry_a jul15 None true "Spot A" jul15
  = (([] ++ [] ++ fst (search_marine_life search_down gen_fixed "Spot A" jul15))%list,
     Some (mkDisplay "Spot A" jul15 (Some []) b),
     Raise (IndexError "single positional indexer is out-of-bounds")).
Proof.
  exact (page_run_empty_table_raises (fixed_http marine_empty weather_empty)
           iso_to_datetime1 search_down gen_fixed registry_a jul15 None "Spot A"
           jul15 _ "34.0" "139.0" [] [] eq_refl eq_refl eq_refl eq_refl eq_refl).
Defined.

(** X19: without a click, no provider is called and the only possible
    event is the warning of lines 151-152, shown when the selected date is
    more than 7 days before today; the cached data stays as it was and the
    page shows it whatever spot and date are selected now. *)
Theorem page_run_no_click_ignores_selection
  (http : request string -> exn payload) (parse : json -> exn timestamp)
  (search : string -> string -> Z -> exn json) (gen : string -> exn string)
  (reg : registry) (today : date) (session : option display_data)
  name1 d1 name2 d2 ev1 ev2 :
  past_date_warning today d1 = Ok ev1 ->
  past_date_warning today d2 = Ok ev2 ->
  ev1 = (if (days_from_civil d1 <? days_from_civil today - 7)%Z
         then [EvWarning past_warning_msg] else []) /\
  page_run http parse search gen reg today session false name1 d1
  = (ev1, session, match session with Some dd => display dd | None => Ok [] end) /\
  page_run http parse search gen reg today session false name2 d2
  = (ev2, session, match session with Some dd => display dd | None => Ok [] end).
Proof.
  intros H1 H2. split; [|unfold page_run; rewrite H1, H2; split; reflexivity].
  unfold past_date_warning in H1.
  destruct (_ <? days_from_civil (mkDate 1 1 1))%Z; [discriminate|].
  injection H1 as <-. reflexivity.
Qed.

Lemma page_run_no_click_ignores_selection_witness :
  [EvWarning past_warning_msg]
  = (if (days_from_civil jul15 <? days_from_civil (mkDate 2024 8 1) - 7)%Z
     then [EvWarning past_warning_msg] else []) /\
  page_run http_down iso_to_datetime1 search_down gen_fixed registry_a
    (mkDate 2024 8 1) None false "Spot A" jul15
  = ([EvWarning past_warning_msg], None, Ok []) /\
  page_run http_down iso_to_datetime1 search_down gen_fixed registry_a
    (mkDate 2024 8 1) None false "Spot B" (mkDate 2024 7 30)
  = ([], None, Ok []).
Proof.
  exact (page_run_no_click_ignores_selection http_down iso_to_datetime1
           search_down gen_fixed registry_a (mkDate 2024 8 1) None
           "Spot A" jul15 "Spot B" (mkDate 2024 7 30) _ _ eq_refl eq_refl).
Defined.

(** ** The spot registry *)

Lemma lookup_last_In_keys {A} (k : string) :
  forall (l : list (string * A)) v, lookup_last k l = Some v -> In k (map fst l).
Proof.
  induction l as [|[k' v'] r IH]; intros v; cbn; [discriminate|].
  destruct (lookup_last k r) as [w|] eqn:Hr.
  - intros _. right. exact (IH w eq_refl).
  - destruct (String.eqb k k') eqn:Hk; [|discriminate].
    apply String.eqb_eq in Hk. auto.
Qed.

Lemma lookup_last_In_pair {A} (k : string) :
  forall (l : list (string * A)) v, lookup_last k l = Some v -> In (k, v) l.
Proof.
  induction l as [|[k' v'] r IH]; intros v; cbn; [discriminate|].
  destruct (lookup_last k r) as [w|] eqn:Hr.
  - intros H. injection H as <-. right. now apply IH.
  - destruct (String.eqb k k') eqn:Hk; [|discriminate].
    apply String.eqb_eq in Hk. subst. intros H. injection H as <-. now left.
Qed.

Lemma lookup_last_In_keys_some {A} (k : string) :
  forall (l : list (string * A)), In k (map fst l) -> exists v, lookup_last k l = Some v.
Proof.
  induction l as [|[k' v'] r IH]; cbn; [contradiction|].
  intros Hk. destruct (lookup_last k r) as [w|] eqn:Hr; [eauto|].
  destruct Hk as [<-|Hk].
  - rewrite String.eqb_refl. eauto.
  - destruct (IH Hk) as [w Hw]. congruence.
Qed.

Lemma lookup_last_NoDup {A} (k : string) :
  forall (l : list (string * A)) v, NoDup (map fst l) -> In (k, v) l ->
  lookup_last k l = Some v.
Proof.
  induction l as [|[k' v'] r IH]; intros v Hnd Hin; cbn in *; [contradiction|].
  inversion Hnd as [|? ? Hnin Hnd']. subst.
  destruct Hin as [Heq|Hin].
  - injection Heq as -> ->.
    destruct (lookup_last k r) as [w|] eqn:Hr.
    + exfalso. apply Hnin. eapply lookup_last_In_keys. exact Hr.
    + now rewrite String.eqb_refl.
  - now rewrite (IH v Hnd' Hin).
Qed.

Lemma remove_at_In {A} (x : A) :
  forall l i, In x (remove_at i l) -> In x l.
Proof.
  induction l as [|y r IH]; intros [|i]; cbn; auto.
  intros [<-|H]; [now left|right; eapply IH; exact H].
Qed.

(** A loaded registry is the [set_index]/[to_dict] table of the file. *)
Lemma load_spots_registry (files : string -> option string)
  (parse : string -> exn csv) ev reg t i :
  load_spots files parse = Continue ev reg ->
  read_csv files parse "diving_spots.csv" = Ok t ->
  index_of "name" (header t) = Some i ->
  NoDup (spot_names t) /\
  reg = map (fun r => (nth i r "", combine (remove_at i (header t)) (remove_at i r)))
            (rows t).
Proof.
  intros Hl Hr Hi. unfold load_spots in Hl. rewrite Hr in Hl. cbn [exn_bind] in Hl.
  rewrite (set_index_to_dict t i Hi) in Hl.
  destruct (has_dup (spot_names t)) eqn:Hd; [discriminate|].
  injection Hl as _ <-. split; [now apply has_dup_false_NoDup|reflexivity].
Qed.

(** X20: every row of a loaded spot file is found again by its name: the
    lookup gives the row's other cells keyed by their column names. *)
Theorem load_spots_lookup_row (files : string -> option string)
  (parse : string -> exn csv) ev reg t i r :
  load_spots files parse = Continue ev reg ->
  read_csv files parse "diving_spots.csv" = Ok t ->
  index_of "name" (header t) = Some i ->
  In r (rows t) ->
  dict_getitem reg (nth i r "") = Ok (combine (remove_at i (header t)) (remove_at i r)).
Proof.
  intros Hl Hr Hi Hrow.
  destruct (load_spots_registry files parse ev reg t i Hl Hr Hi) as [Hnd ->].
  unfold dict_getitem.
  rewrite (lookup_last_NoDup _ _ (combine (remove_at i (header t)) (remove_at i r)));
    [reflexivity| |].
  - rewrite map_map. cbn [fst]. rewrite <- (spot_names_index t i Hi). exact Hnd.
  - apply (in_map (fun r => (nth i r "", combine (remove_at i (header t)) (remove_at i r))))
      in Hrow. exact Hrow.
Qed.

Lemma load_spots_lookup_row_witness :
  match load_spots (spots_file csv_two) simple_csv with
  | Continue _ reg =>
      dict_getitem reg (nth 0 ["Spot B"; "35.0"; "140.0"] "")
      = Ok (combine (remove_at 0 ["name"; "lat"; "lon"])
                    (remove_at 0 ["Spot B"; "35.0"; "140.0"]))
  | _ => False
  end.
Proof.
  destruct (load_spots (spots_file csv_two) simple_csv) as [ev reg|ev|ev e] eqn:Hl;
    [|vm_compute in Hl; discriminate Hl|vm_compute in Hl; discriminate Hl].
  exact (load_spots_lookup_row (spots_file csv_two) simple_csv ev reg
           (mkCsv ["name"; "lat"; "lon"]
                  [["Spot A"; "34.0"; "139.0"]; ["Spot B"; "35.0"; "140.0"]])
           0 ["Spot B"; "35.0"; "140.0"]
           Hl eq_refl eq_refl (or_intror (or_introl eq_refl))).
Defined.

(** X21: when the spot file has no [lon] column, every fetch of a listed
    spot raises the [KeyError] of [lat] or [lon] and calls no provider. *)
Theorem load_spots_without_lon_fetch_fails (files : string -> option string)
  (parse : string -> exn csv) ev reg t
  (http : request string -> exn payload) (tdt : json -> exn timestamp)
  (search : string -> string -> Z -> exn json) (gen : string -> exn string)
  (name : string) (d : date) :
  load_spots files parse = Continue ev reg ->
  read_csv files parse "diving_spots.csv" = Ok t ->
  ~ In "lon" (header t) ->
  In name (map fst reg) ->
  exists k, (k = "lat" \/ k = "lon") /\
    on_fetch http tdt search gen reg name d = ([], Raise (KeyError k)).
Proof.
  intros Hl Hr Hlon Hname.
  destruct (lookup_last_In_keys_some name reg Hname) as [coords Hc].
  pose proof Hc as Hc'.
  unfold load_spots in Hl. rewrite Hr in Hl. cbn [exn_bind] in Hl.
  destruct (index_of "name" (header t)) as [i|] eqn:Hi;
    [|unfold set_index in Hl; rewrite Hi in Hl; discriminate].
  rewrite (set_index_to_dict t i Hi) in Hl.
  destruct (has_dup (spot_names t)); [discriminate|].
  injection Hl as _ <-.
  apply lookup_last_In_pair, in_map_iff in Hc as [r [Hrc _]].
  injection Hrc as _ Hcoords.
  assert (Hno : lookup_last "lon" coords = None).
  { destruct (lookup_last "lon" coords) as [v|] eqn:Hv; [|reflexivity].
    exfalso. apply Hlon. apply lookup_last_In_keys in Hv.
    rewrite <- Hcoords in Hv. apply in_map_iff in Hv as [[k w] [Hk Hkw]].
    cbn in Hk. subst k. apply in_combine_l in Hkw. eapply remove_at_In. exact Hkw. }
  unfold on_fetch, dict_getitem. rewrite Hc'. cbn [exn_bind].
  destruct (lookup_last "lat" coords) as [lat|] eqn:Hla.
  - exists "lon". split; [now right|]. cbn [exn_bind]. rewrite Hno. reflexivity.
  - exists "lat". split; [now left|]. reflexivity.
Qed.

Lemma load_spots_without_lon_fetch_fails_witness :
  exists k, (k = "lat" \/ k = "lon") /\
    on_fetch http_down iso_to_datetime1 search_down gen_fixed registry_no_lon
      "Spot A" jul15 = ([], Raise (KeyError k)).
Proof.
  apply (load_spots_without_lon_fetch_fails (spots_file csv_no_lon) simple_csv []
           registry_no_lon (mkCsv ["name"; "lat"] [["Spot A"; "34.0"]])
           http_down iso_to_datetime1 search_down gen_fixed "Spot A" jul15
           eq_refl eq_refl).
  - cbn. intros [H|[H|[]]]; discriminate.
  - now left.
Defined.

(** ** Start-up *)

(** X22: with both API keys in [secrets.toml], the secrets step reports
    nothing; an empty Tavily key makes [TavilyClient] raise
    [MissingAPIKeyError], which ends the run uncaught before the spot file
    is read; otherwise the start-up's outcome is the spot loading's, with
    the two keys read. *)
Theorem startup_with_keys (files : string -> option string)
  (parse : string -> exn csv) (s : secrets_store) :
  secret_present s "GOOGLE_API_KEY" = true ->
  secret_present s "TAVILY_API_KEY" = true ->
  exists g t,
    secrets_get s "general" "GOOGLE_API_KEY" = Ok g /\
    secrets_get s "general" "TAVILY_API_KEY" = Ok t /\
    startup files parse s =
    if String.eqb t "" then Uncaught [] (OtherError "No API key provided. Please provide the api_key attribute or set the TAVILY_API_KEY environment variable.")
    else
      match load_spots files parse with
      | Continue ev reg => Continue ev ((g, t), reg)
      | Stopped ev => Stopped ev
      | Uncaught ev e => Uncaught ev e
      end.
Proof.
  unfold secret_present, startup, load_secrets, secrets_get.
  destruct s as [secs|]; [|discriminate].
  destruct (lookup_last "general" secs) as [kvs|]; [|discriminate].
  destruct (lookup_last "GOOGLE_API_KEY" kvs) as [g|]; [|discriminate].
  destruct (lookup_last "TAVILY_API_KEY" kvs) as [t|]; [|discriminate].
  intros _ _. exists g, t. split; [reflexivity|]. split; [reflexivity|].
  cbn [exn_bind]. unfold tavily_client.
  destruct (String.eqb t ""); [reflexivity|].
  destruct (load_spots files parse); reflexivity.
Qed.

Lemma startup_with_keys_witness :
  (exists g t,
    secrets_get secrets_both "general" "GOOGLE_API_KEY" = Ok g /\
    secrets_get secrets_both "general" "TAVILY_API_KEY" = Ok t /\
    startup (spots_file csv_no_lon) simple_csv secrets_both =
    if String.eqb t "" then Uncaught [] (OtherError "No API key provided. Please provide the api_key attribute or set the TAVILY_API_KEY environment variable.")
    else
      match load_spots (spots_file csv_no_lon) simple_csv with
      | Continue ev reg => Continue ev ((g, t), reg)
      | Stopped ev => Stopped ev
      | Uncaught ev e => Uncaught ev e
      end) /\
  (exists g t,
    secrets_get secrets_empty_tavily "general" "GOOGLE_API_KEY" = Ok g /\
    secrets_get secrets_empty_tavily "general" "TAVILY_API_KEY" = Ok t /\
    startup (spots_file csv_no_lon) simple_csv secrets_empty_tavily =
    if String.eqb t "" then Uncaught [] (OtherError "No API key provided. Please provide the api_key attribute or set the TAVILY_API_KEY environment variable.")
    else
      match load_spots (spots_file csv_no_lon) simple_csv with
      | Continue ev reg => Continue ev ((g, t), reg)
      | Stopped ev => Stopped ev
      | Uncaught ev e => Uncaught ev e
      end).
Proof.
  split.
  - exact (startup_with_keys (spots_file csv_no_lon) simple_csv secrets_both
             eq_refl eq_refl).
  - exact (startup_with_keys (spots_file csv_no_lon) simple_csv
             secrets_empty_tavily eq_refl eq_refl).
Defined.
